(** * labgrid: the serial transport and the shell session drivers

    A shallow embedding of [labgrid/driver/serialdriver.py] and
    [labgrid/driver/shelldriver.py], with the parts of the Python run time
    the two files lean on ([str], [bytes.decode], [re], [shlex.quote],
    [int], exceptions), followed by the properties of the drivers.

    A method is a function from the object it runs on to a result, which
    is a value or an exception, and the object as the method leaves it.
    What the far end of the line does is not the program's to decide: the
    console and the serial device carry it as data (the replies to come,
    the bytes to come, whether an attempt to open succeeds), and the
    theorems hold for all of it.  Logging, the registration with the
    target factory and the binding done by the [Driver] base class have
    no part in what is stated and are left out. *)

From Stdlib Require Import ZArith NArith Strings.Byte Ascii String DecimalString.
From stdpp Require Import base option list gmap.

Local Open Scope N_scope.

(** ** Python text *)

Module Py.

(** A Python [str] is a sequence of Unicode code points. *)
Definition str : Type := list N.

(** A Python [bytes] object. *)
Definition bytes : Type := list byte.

(** An ASCII literal of the source, one code point per character. *)
Definition lit (s : string) : str :=
  map N_of_ascii (list_ascii_of_string s).

Definition encode_ascii (s : string) : bytes := list_byte_of_string s.

Arguments lit : simpl never.

Definition CR : N := 13.
Definition LF : N := 10.
Definition ESC : N := 27.
Definition CSI : N := 155.
Definition DQUOTE : str := [34].
Definition SQUOTE : str := [39].
Definition CRLF : str := [CR; LF].

Definition in_range (lo hi c : N) : bool := (lo <=? c) && (c <=? hi).

Definition one_of (s : string) (c : N) : bool :=
  existsb (N.eqb c) (lit s).

(** What the interpreter at hand decides.  The character data Python
    takes from the Unicode database for code points above U+00FF: the
    decimal-digit value, alphanumeric and white-space properties; below
    U+0100 the tables are written out.  And
    [sys.get_int_max_str_digits()], the longest run of digits that [int]
    reads: 4300 unless configured otherwise since CPython 3.11, and 0,
    for no limit, before. *)
Class UCD := {
  hi_decimal : N -> option N;
  hi_alnum : N -> bool;
  hi_space : N -> bool;
  int_max_str_digits : N
}.

Section Classes.
Context `{UCD}.

Definition ascii_digit (c : N) : bool := in_range 48 57 c.
Definition ascii_alpha (c : N) : bool := in_range 65 90 c || in_range 97 122 c.
Definition ascii_word (c : N) : bool :=
  ascii_alpha c || ascii_digit c || (c =? 95).

(** [Py_UNICODE_TODECIMAL] *)
Definition uni_decimal (c : N) : option N :=
  if c <? 256 then (if ascii_digit c then Some (c - 48) else None)
  else hi_decimal c.

(** [Py_UNICODE_ISSPACE] *)
Definition uni_space (c : N) : bool :=
  if c <? 256
  then in_range 9 13 c || in_range 28 32 c || (c =? 133) || (c =? 160)
  else hi_space c.

(** [Py_UNICODE_ISALNUM] *)
Definition uni_alnum (c : N) : bool :=
  if c <? 256
  then ascii_alpha c || ascii_digit c
       || (c =? 170) || (c =? 178) || (c =? 179) || (c =? 181)
       || (c =? 185) || (c =? 186) || in_range 188 190 c
       || in_range 192 214 c || in_range 216 246 c || in_range 248 255 c
  else hi_alnum c.

(** The classes [\d], [\s] and [\w] of a [str] pattern. *)
Definition re_d (c : N) : bool := bool_decide (is_Some (uni_decimal c)).
Definition re_s (c : N) : bool := uni_space c.
Definition re_w (c : N) : bool := uni_alnum c || (c =? 95).
End Classes.

(** [.] without [re.DOTALL]. *)
Definition re_dot (c : N) : bool := negb (c =? LF).

(** *** [bytes.decode('utf-8')], strict *)

Definition is_cont (b : N) : bool := in_range 128 191 b.
Definition low6 (b : N) : N := N.land b 63.

Fixpoint utf8_decode_N (b : list N) : option str :=
  match b with
  | [] => Some []
  | b0 :: t0 =>
    if b0 <? 128 then cons b0 <$> utf8_decode_N t0
    else if in_range 194 223 b0 then
      match t0 with
      | b1 :: t1 =>
        if is_cont b1
        then cons (N.shiftl (N.land b0 31) 6 + low6 b1) <$> utf8_decode_N t1
        else None
      | _ => None
      end
    else if in_range 224 239 b0 then
      match t0 with
      | b1 :: b2 :: t2 =>
        let c := N.shiftl (N.land b0 15) 12 + N.shiftl (low6 b1) 6 + low6 b2 in
        if is_cont b1 && is_cont b2 && (2048 <=? c)
           && negb (in_range 55296 57343 c)
        then cons c <$> utf8_decode_N t2
        else None
      | _ => None
      end
    else if in_range 240 244 b0 then
      match t0 with
      | b1 :: b2 :: b3 :: t3 =>
        let c := N.shiftl (N.land b0 7) 18 + N.shiftl (low6 b1) 12
                 + N.shiftl (low6 b2) 6 + low6 b3 in
        if is_cont b1 && is_cont b2 && is_cont b3 && in_range 65536 1114111 c
        then cons c <$> utf8_decode_N t3
        else None
      | _ => None
      end
    else None
  end.

Definition utf8_decode (b : bytes) : option str :=
  utf8_decode_N (map Byte.to_N b).

(** *** [str.split(sep)], [list.index], slices *)

Fixpoint strip_prefix (p s : str) : option str :=
  match p, s with
  | [], _ => Some s
  | a :: p', b :: s' => if a =? b then strip_prefix p' s' else None
  | _ :: _, [] => None
  end.

(** [skip] counts the characters of a separator found at an earlier
    position that are still to be passed over. *)
Fixpoint split_go (sep : str) (skip : nat) (cur : str) (s : str) : list str :=
  match s with
  | [] => [rev cur]
  | c :: s' =>
    match skip with
    | S k => split_go sep k cur s'
    | O =>
      match strip_prefix sep s with
      | Some _ => rev cur :: split_go sep (Nat.pred (length sep)) [] s'
      | None => split_go sep O (c :: cur) s'
      end
    end
  end.

(** [s.split(sep)] for a non-empty separator. *)
Definition str_split (sep s : str) : list str := split_go sep O [] s.

Definition str_eqb (a b : str) : bool := bool_decide (a = b).

(** [l.index(x)]: the first position of [x], [None] for [ValueError]. *)
Fixpoint list_index (x : str) (l : list str) : option nat :=
  match l with
  | [] => None
  | y :: l' => if str_eqb y x then Some O else S <$> list_index x l'
  end.

(** [s.replace(old, new)] for a one-character [old]. *)
Definition str_replace1 (old : N) (new : str) (s : str) : str :=
  flat_map (fun c => if c =? old then new else [c]) s.

(** *** Regular expressions: a backtracking matcher

    Ordered alternation and greedy repetition, as [re] has them.  The
    continuation receives the rest of the subject and the groups seen so
    far; a failing continuation makes the matcher try its next choice. *)

Inductive regex : Type :=
| Eps
| Chr (p : N -> bool)
| Cat (a b : regex)
| Alt (a b : regex)
| Star (a : regex)
| Grp (name : string) (a : regex).

Definition Plus (a : regex) : regex := Cat a (Star a).

Definition Seq (l : list regex) : regex := foldr Cat Eps l.

Definition Lit (s : str) : regex := Seq (map (fun c => Chr (N.eqb c)) s).

Definition groups : Type := list (string * str).

Fixpoint bt {A : Type} (r : regex) (s : str) (g : groups)
    (k : str -> groups -> option A) : option A :=
  match r with
  | Eps => k s g
  | Chr p =>
    match s with
    | c :: s' => if p c then k s' g else None
    | [] => None
    end
  | Cat a b => bt a s g (fun s1 g1 => bt b s1 g1 k)
  | Alt a b =>
    match bt a s g k with
    | Some x => Some x
    | None => bt b s g k
    end
  | Star a =>
    (fix loop (n : nat) (s : str) (g : groups) {struct n} : option A :=
       match n with
       | O => k s g
       | S n' =>
         match bt a s g (fun s1 g1 =>
                 if (length s1 <? length s)%nat then loop n' s1 g1 else None) with
         | Some x => Some x
         | None => k s g
         end
       end) (length s) s g
  | Grp name a =>
    bt a s g (fun s1 g1 =>
      k s1 ((name, take (length s - length s1)%nat s) :: g1))
  end.

(** [pattern.match(s)]: anchored at the start; the groups, latest first. *)
Definition re_match (r : regex) (s : str) : option groups :=
  bt r s [] (fun _ g => Some g).

(** The number of characters the match at the start of [s] spans. *)
Definition re_match_len (r : regex) (s : str) : option nat :=
  bt r s [] (fun s1 _ => Some (length s - length s1)%nat).

(** [match.groupdict()[name]] *)
Fixpoint group (name : string) (g : groups) : option str :=
  match g with
  | [] => None
  | (n, v) :: g' => if String.eqb n name then Some v else group name g'
  end.

(** [pattern.sub('', s, count)] for a pattern that matches no empty
    string: the leftmost matches are deleted, at most [count] of them
    ([count = 0]: all of them). *)
Fixpoint sub_go (r : regex) (skip : nat) (budget : option N) (s : str) : str :=
  match s with
  | [] => []
  | c :: s' =>
    match skip with
    | S k => sub_go r k budget s'
    | O =>
      if bool_decide (budget = Some 0) then s
      else
        match re_match_len r s with
        | Some (S m) => sub_go r m (N.pred <$> budget) s'
        | _ => c :: sub_go r O budget s'
        end
    end
  end.

Definition re_sub_del (r : regex) (s : str) (count : N) : str :=
  sub_go r O (if count =? 0 then None else Some count) s.

(** *** [int(s)] on a [str], base ten

    As CPython reads it since 3.6: blanks around the number, one sign,
    decimal digits of any script with single underscores between them;
    and no more digits than the interpreter allows. *)

Section Int.
Context `{UCD}.

Inductive int_tok : Type :=
| TSpace | TDigit (d : N) | TPlus | TMinus | TUnder | TOther.

(** The ASCII transliteration made before the number is read: code
    points below 127 are kept, a Unicode space becomes a blank, a
    Unicode decimal digit its ASCII digit, anything else is refused. *)
Definition int_tok_of (c : N) : int_tok :=
  if c <? 127 then
    if in_range 9 13 c || (c =? 32) then TSpace
    else if ascii_digit c then TDigit (c - 48)
    else if c =? 43 then TPlus
    else if c =? 45 then TMinus
    else if c =? 95 then TUnder
    else TOther
  else if uni_space c then TSpace
  else match uni_decimal c with
       | Some d => TDigit d
       | None => TOther
       end.

Definition is_TSpace (t : int_tok) : bool :=
  match t with TSpace => true | _ => false end.

(** Digits with single underscores between them, then blanks only.
    [acc] is the value read so far, [count] the number of digits read,
    [after_digit] whether the previous token was a digit. *)
Fixpoint int_digits (acc count : N) (after_digit : bool) (l : list int_tok)
    : option (N * N) :=
  match l with
  | [] => if after_digit then Some (acc, count) else None
  | TDigit d :: l' => int_digits (10 * acc + d) (count + 1) true l'
  | TUnder :: l' =>
    if after_digit then int_digits acc count false l' else None
  | TSpace :: l' =>
    if after_digit && forallb is_TSpace l' then Some (acc, count) else None
  | _ => None
  end.

(** The check of [PyLong_FromString]: up to 640 digits are read
    whatever the limit, more only up to the limit if there is one. *)
Definition digits_allowed (count : N) : bool :=
  (count <=? 640) || (int_max_str_digits =? 0)
  || (count <=? int_max_str_digits).

(** The number after the sign. *)
Definition int_magnitude (l : list int_tok) : option N :=
  match int_digits 0 0 false l with
  | Some (n, count) => if digits_allowed count then Some n else None
  | None => None
  end.

Fixpoint skip_blanks (l : list int_tok) : list int_tok :=
  match l with
  | TSpace :: l' => skip_blanks l'
  | _ => l
  end.

Definition py_int (s : str) : option Z :=
  let l := skip_blanks (map int_tok_of s) in
  match l with
  | TMinus :: l' => (fun n => (- Z.of_N n)%Z) <$> int_magnitude l'
  | TPlus :: l' => Z.of_N <$> int_magnitude l'
  | _ => Z.of_N <$> int_magnitude l
  end.
End Int.

(** *** [str.format] of an [int], [shlex.quote] *)

Definition str_of_Z (z : Z) : str :=
  lit (NilZero.string_of_int (Z.to_int z)).

(** [shlex._find_unsafe]: a character outside [[\w@%+=:,./-]] under
    [re.ASCII]. *)
Definition shlex_unsafe (c : N) : bool :=
  negb (ascii_word c || one_of "@%+=:,./-" c).

Definition shlex_quote (s : str) : str :=
  match s with
  | [] => SQUOTE ++ SQUOTE
  | _ =>
    if existsb shlex_unsafe s
    then SQUOTE ++ str_replace1 39 (SQUOTE ++ DQUOTE ++ SQUOTE ++ DQUOTE ++ SQUOTE) s
         ++ SQUOTE
    else s
  end.

(** ** Exceptions and effects *)

Inductive exn : Type :=
| TIMEOUT (msg : str)             (* pexpect.TIMEOUT *)
| ValueError
| IndexError
| TypeError
| KeyError (key : str)
| UnicodeDecodeError
| FileNotFoundError (path : str)
| IOError (path : str)            (* the key line of the file did not parse *)
| ExecutionError (cmd : str)      (* labgrid.driver.exception *)
| SerialException (msg : str)     (* serial.SerialException *)
| Exception (msg : str).

(** A computation on a mutable object of type [S] that returns or
    raises; what it did to the object before raising stays done. *)
Definition M (S A : Type) : Type := S -> (exn + A) * S.

Definition ret {S A} (a : A) : M S A := fun s => (inr a, s).
Definition raise {S A} (e : exn) : M S A := fun s => (inl e, s).
Definition bind {S A B} (m : M S A) (k : A -> M S B) : M S B :=
  fun s => match m s with
           | (inr a, s') => k a s'
           | (inl e, s') => (inl e, s')
           end.
Definition get {S} : M S S := fun s => (inr s, s).
Definition modify {S} (f : S -> S) : M S unit := fun s => (inr tt, f s).

(** [try: m except <class>: h], the class given by [catches]. *)
Definition try_except {S A} (m : M S A) (catches : exn -> bool) (h : M S A)
    : M S A :=
  fun s => match m s with
           | (inl e, s') => if catches e then h s' else (inl e, s')
           | r => r
           end.

(** A computation on a part of the object, run on the whole. *)
Definition zoom {S T A} (proj : S -> T) (upd : T -> S -> S) (m : M T A)
    : M S A :=
  fun s => let '(r, t) := m (proj s) in (r, upd t s).

Definition of_option {S A} (e : exn) (o : option A) : M S A :=
  match o with
  | Some a => ret a
  | None => raise e
  end.

Definition lift_result {S A} (r : exn + A) : M S A := fun s => (r, s).

Definition is_TIMEOUT (e : exn) : bool :=
  match e with TIMEOUT _ => true | _ => false end.
Definition is_ExecutionError (e : exn) : bool :=
  match e with ExecutionError _ => true | _ => false end.
Definition is_SerialException (e : exn) : bool :=
  match e with SerialException _ => true | _ => false end.

Declare Scope py_scope.
Delimit Scope py_scope with py.
Notation "x <- m ;; k" := (bind m (fun x => k))
  (at level 100, m at next level, right associativity) : py_scope.
Notation "m ;; k" := (bind m (fun _ => k))
  (at level 100, right associativity) : py_scope.

End Py.

Import Py.
Local Open Scope py_scope.

(** ** The byte transport: [serialdriver.py] *)

(** Modelled from the spec: the endpoint descriptors of
    [labgrid/resource], which are not part of these sources.  A local
    descriptor has a device path and a speed; a proxied one a logical host
    and port, a speed and a declared sub-protocol. *)
Module Resource.
Inductive t : Type :=
| SerialPort (port : option str) (speed : Z)
| NetworkSerialPort (host : str) (port : Z) (speed : Z) (protocol : str).

Definition speed (r : t) : Z :=
  match r with
  | SerialPort _ v => v
  | NetworkSerialPort _ _ v _ => v
  end.
End Resource.

(** The [serial.Serial] object of pyserial and the line behind it. *)
Module PySerial.
Section PySerial.
Context {float : Type}.

(** The physical side.  [link n] tells whether the [n]-th attempt to
    open the device succeeds; [opens] and [closes] count the attempts
    made.  [rx] holds the bytes already received ([in_waiting] is its
    length), [feed] the bytes that arrive within the time limit of each
    coming read, [tx] the bytes written.  [unopened] is what the count
    of pending bytes raises when asked of a closed port: the
    port-not-open SerialException on an rfc2217 or socket port, the
    TypeError or AttributeError of the platform call on a local one. *)
Record Device : Type := {
  link : nat -> bool;
  opens : nat;
  closes : nat;
  rx : bytes;
  feed : list bytes;
  tx : bytes;
  unopened : exn
}.

Record Serial : Type := {
  port : option str;
  baudrate : Z;
  timeout : option float;
  is_open : bool;
  dev : Device
}.

Definition with_dev (d : Device) (s : Serial) : Serial :=
  {| port := port s; baudrate := baudrate s; timeout := timeout s;
     is_open := is_open s; dev := d |}.
Definition with_is_open (b : bool) (s : Serial) : Serial :=
  {| port := port s; baudrate := baudrate s; timeout := timeout s;
     is_open := b; dev := dev s |}.

Definition port_not_open : exn :=
  SerialException (lit "Attempting to use a port that is not open").

(** [Serial.open()] *)
Definition open : M Serial unit := fun s =>
  match port s with
  | None =>
    (inl (SerialException
            (lit "Port must be configured before it can be used.")), s)
  | Some _ =>
    if is_open s
    then (inl (SerialException (lit "Port is already open.")), s)
    else
      let d := dev s in
      let d' := {| link := link d; opens := S (opens d); closes := closes d;
                   rx := rx d; feed := feed d; tx := tx d;
                   unopened := unopened d |} in
      if link d (opens d)
      then (inr tt, with_is_open true (with_dev d' s))
      else (inl (SerialException (lit "could not open port")), with_dev d' s)
  end.

(** [Serial.close()] *)
Definition close : M Serial unit := fun s =>
  if is_open s
  then
    let d := dev s in
    let d' := {| link := link d; opens := opens d; closes := S (closes d);
                 rx := rx d; feed := feed d; tx := tx d;
                 unopened := unopened d |} in
    (inr tt, with_is_open false (with_dev d' s))
  else (inr tt, s).

(** [serial.port = p]: a port that is open is closed and opened again
    under the new name. *)
Definition set_port (p : option str) : M Serial unit := fun s =>
  let assign (s : Serial) : Serial :=
    {| port := p; baudrate := baudrate s; timeout := timeout s;
       is_open := is_open s; dev := dev s |} in
  if is_open s
  then (close ;; modify assign ;; open) s
  else (inr tt, assign s).

(** [serial.baudrate = b]: a negative speed is refused, the object
    left as it was. *)
Definition set_baudrate (b : Z) : M Serial unit := fun s =>
  if (b <? 0)%Z
  then (inl ValueError, s)
  else (inr tt, {| port := port s; baudrate := b; timeout := timeout s;
                   is_open := is_open s; dev := dev s |}).

Definition set_timeout (t : float) : M Serial unit :=
  modify (fun s => {| port := port s; baudrate := baudrate s;
                      timeout := Some t; is_open := is_open s;
                      dev := dev s |}).

(** [serial.in_waiting] *)
Definition in_waiting : M Serial Z := fun s =>
  if is_open s
  then (inr (Z.of_nat (length (rx (dev s)))), s)
  else (inl (unopened (dev s)), s).

(** [serial.read(size)]: up to [size] bytes of what is there once the
    wait is over, the bytes received before first. *)
Definition read (size : Z) : M Serial bytes := fun s =>
  if is_open s
  then
    let d := dev s in
    let avail := rx d ++ hd [] (feed d) in
    let n := Z.to_nat size in
    let d' := {| link := link d; opens := opens d; closes := closes d;
                 rx := drop n avail; feed := tl (feed d); tx := tx d;
                 unopened := unopened d |} in
    (inr (take n avail), with_dev d' s)
  else (inl port_not_open, s).

(** [serial.write(data)] *)
Definition write (data : bytes) : M Serial Z := fun s =>
  if is_open s
  then
    let d := dev s in
    let d' := {| link := link d; opens := opens d; closes := closes d;
                 rx := rx d; feed := feed d; tx := tx d ++ data;
                 unopened := unopened d |} in
    (inr (Z.of_nat (length data)), with_dev d' s)
  else (inl port_not_open, s).

(** [serial.Serial()], [serial.rfc2217.Serial()] and
    [serial.serial_for_url("socket://", do_not_open=True)] *)
Definition fresh (p : option str) (d : Device) : Serial :=
  {| port := p; baudrate := 9600; timeout := None; is_open := false;
     dev := d |}.
End PySerial.
Arguments Device : clear implicits.
Arguments Serial : clear implicits.
End PySerial.

Module SerialDriver.
Section SerialDriver.
Context {float : Type}.

(** ["%.2f" % t] *)
Variable fmt_2f : float -> str.

(** Modelled from the spec: the proxy lookup
    [labgrid.util.proxy.proxymanager.get_host_and_port], which is not
    part of these sources.  It yields the effective host and port of a
    proxied descriptor, or fails. *)
Variable get_host_and_port : Resource.t -> exn + (str * Z).

Record t : Type := {
  port : Resource.t;
  txdelay : float;
  serial : PySerial.Serial float;
  status : Z
}.

Definition with_serial (s : PySerial.Serial float) (d : t) : t :=
  {| port := port d; txdelay := txdelay d; serial := s; status := status d |}.
Definition with_status (z : Z) (d : t) : t :=
  {| port := port d; txdelay := txdelay d; serial := serial d; status := z |}.

(** A method of [self.serial], run on the driver. *)
Definition on_serial {A} (m : M (PySerial.Serial float) A) : M t A :=
  zoom serial with_serial m.

(** [str(x)] of an attribute that may be [None] *)
Definition str_of_opt (o : option str) : str :=
  match o with
  | Some s => s
  | None => lit "None"
  end.

Definition unknown_protocol : exn :=
  Exception (lit "SerialDriver: unknown protocol").

(** [__attrs_post_init__]: the driver built on a bound resource, with
    the serial object that fits it. *)
Definition __attrs_post_init__ (res : Resource.t) (delay : float)
    (d : PySerial.Device) : exn + t :=
  let build (s : PySerial.Serial float) : t :=
    {| port := res; txdelay := delay; serial := s; status := 0 |} in
  match res with
  | Resource.SerialPort _ _ => inr (build (PySerial.fresh None d))
  | Resource.NetworkSerialPort _ _ _ protocol =>
    if str_eqb protocol (lit "rfc2217")
    then inr (build (PySerial.fresh None d))
    else if str_eqb protocol (lit "raw")
    then inr (build (PySerial.fresh (Some (lit "socket://")) d))
    else inl unknown_protocol
  end.

Definition open : M t unit :=
  self <- get ;;
  if (status self =? 0)%Z
  then
    try_except (on_serial PySerial.open) is_SerialException
      (self <- get ;;
       raise (SerialException
                (lit "Could not open serial port "
                 ++ str_of_opt (PySerial.port (serial self))))) ;;
    modify (with_status 1)
  else ret tt.

Definition close : M t unit :=
  self <- get ;;
  if negb (status self =? 0)%Z
  then on_serial PySerial.close ;; modify (with_status 0)
  else ret tt.

Definition on_activate : M t unit :=
  self <- get ;;
  match port self with
  | Resource.SerialPort p speed =>
    on_serial (PySerial.set_port p) ;;
    on_serial (PySerial.set_baudrate speed)
  | Resource.NetworkSerialPort _ _ speed protocol =>
    hp <- lift_result (get_host_and_port (port self)) ;;
    let '(host, port) := hp in
    (if str_eqb protocol (lit "rfc2217")
     then on_serial (PySerial.set_port
            (Some (lit "rfc2217://" ++ host ++ lit ":" ++ str_of_Z port
                   ++ lit "/")))
     else if str_eqb protocol (lit "raw")
     then on_serial (PySerial.set_port
            (Some (lit "socket://" ++ host ++ lit ":" ++ str_of_Z port
                   ++ lit "/")))
     else raise unknown_protocol) ;;
    on_serial (PySerial.set_baudrate speed)
  end ;;
  open.

Definition on_deactivate : M t unit := close.

Definition _read (size : Z) (timeout : float) : M t bytes :=
  pending <- on_serial PySerial.in_waiting ;;
  let reading := Z.max size pending in
  on_serial (PySerial.set_timeout timeout) ;;
  res <- on_serial (PySerial.read reading) ;;
  match res with
  | [] => raise (TIMEOUT (lit "Timeout of " ++ fmt_2f timeout
                          ++ lit " seconds exceeded"))
  | _ => ret res
  end.

Definition _write (data : bytes) : M t Z :=
  on_serial (PySerial.write data).
End SerialDriver.
Arguments t : clear implicits.
End SerialDriver.

(** ** The console channel *)

(** Modelled from the spec: the console channel
    ([labgrid/driver/consoleexpectmixin.py] over a console driver), which
    is not part of these sources.  [sendline] hands a line to the
    transport, and a fault of the transport leaves it as an exception.
    [expect] waits until the pattern matches and returns what was
    buffered before the match, or fails with a Timeout, or with the fault
    of the transport underneath.  What the far end and the line do is not
    decided by the program: [replies] lists what is to come.  [sent] and
    [awaited] record the lines handed to [sendline] and the patterns
    handed to [expect], the oldest first, whether or not the call came
    back. *)
Module Console.

(** What the console meets next: the awaited pattern, after the text
    [before]; a wait that runs out; a fault of the transport under the
    wait; or a transport that is down and fails whatever is asked of it
    next, a write included. *)
Inductive event : Type :=
| Before (before : bytes)
| Silence
| Fault (e : exn)
| Down (e : exn).

Record t : Type := {
  sent : list str;
  awaited : list str;
  replies : list event
}.

Definition timed_out : exn := TIMEOUT (lit "Timeout exceeded.").

Definition sendline (line : str) : M t unit := fun c =>
  let log := sent c ++ [line] in
  match replies c with
  | Down e :: rest =>
    (inl e, {| sent := log; awaited := awaited c; replies := rest |})
  | _ =>
    (inr tt, {| sent := log; awaited := awaited c; replies := replies c |})
  end.

(** A console with nothing left to come stays silent. *)
Definition expect (pattern : str) : M t bytes := fun c =>
  let heard (r : list event) : t :=
    {| sent := sent c; awaited := awaited c ++ [pattern]; replies := r |} in
  match replies c with
  | Before before :: rest => (inr before, heard rest)
  | Silence :: rest => (inl timed_out, heard rest)
  | Fault e :: rest => (inl e, heard rest)
  | Down e :: rest => (inl e, heard rest)
  | [] => (inl timed_out, heard [])
  end.
End Console.

(** ** The shell session: [shelldriver.py] *)

Module ShellDriver.
Section ShellDriver.
Context `{UCD}.

(** The text files of the controlling host: what [open(path)] in text
    mode delivers, [None] where the file cannot be opened. *)
Variable host_files : str -> option str.

Record t : Type := {
  prompt : str;
  login_prompt : str;
  username : str;
  password : str;
  keyfile : str;
  _status : Z;
  console : Console.t
}.

Definition with_status (z : Z) (d : t) : t :=
  {| prompt := prompt d; login_prompt := login_prompt d;
     username := username d; password := password d;
     keyfile := keyfile d; _status := z; console := console d |}.
Definition with_console (c : Console.t) (d : t) : t :=
  {| prompt := prompt d; login_prompt := login_prompt d;
     username := username d; password := password d;
     keyfile := keyfile d; _status := _status d; console := c |}.

(** A method of [self.console], run on the driver. *)
Definition on_console {A} (m : M Console.t A) : M t A :=
  zoom console with_console m.

Definition MARKER : str := lit "MARKER".

(** The last character of an escape sequence: [[@-_a-z]]. *)
Definition vt100_final (c : N) : bool :=
  in_range 64 95 c || in_range 97 122 c.

(** [(\x1b\[|\x9b)[^@-_a-z]*[@-_a-z]|\x1b[@-_a-z]] *)
Definition re_vt100 : regex :=
  Alt (Seq [Alt (Seq [Chr (N.eqb ESC); Chr (N.eqb 91)]) (Chr (N.eqb CSI));
            Star (Chr (fun c => negb (vt100_final c)));
            Chr vt100_final])
      (Seq [Chr (N.eqb ESC); Chr vt100_final]).

(** The result of [run]: output lines, diagnostics, exit code. *)
Definition result : Type := list str * list str * Z.

Definition run (cmd : str) : M t (option result) :=
  let cmp_command := lit "run " ++ shlex_quote cmd in
  self <- get ;;
  if (_status self =? 1)%Z
  then
    on_console (Console.sendline cmp_command) ;;
    before <- on_console (Console.expect (prompt self)) ;;
    text <- of_option UnicodeDecodeError (utf8_decode before) ;;
    let data := str_split CRLF (re_sub_del re_vt100 text 1000000) in
    i <- of_option ValueError (list_index MARKER data) ;;
    let data := drop (S i) data in
    j <- of_option ValueError (list_index MARKER data) ;;
    let data := take j data in
    code <- of_option IndexError (last data) ;;
    exitcode <- of_option ValueError (py_int code) ;;
    let data := removelast data in
    ret (Some (data, [], exitcode))
  else ret None.

(** [try: self.console.expect(p) except TIMEOUT: pass] *)
Definition expect_or_pass (p : str) : M t unit :=
  try_except (on_console (Console.expect p) ;; ret tt) is_TIMEOUT (ret tt).

Definition await_login : M t unit :=
  self <- get ;;
  on_console (Console.sendline []) ;;
  expect_or_pass (login_prompt self) ;;
  on_console (Console.sendline (username self)) ;;
  match password self with
  | [] => ret tt
  | _ =>
    expect_or_pass (lit "Password: ") ;;
    on_console (Console.sendline (password self))
  end.

Definition run_check (cmd : str) : M t (list str) :=
  res <- run cmd ;;
  match res with
  | None => raise TypeError
  | Some (out, _, exitcode) =>
    if negb (exitcode =? 0)%Z then raise (ExecutionError cmd) else ret out
  end.

Definition get_status : M t Z := self <- get ;; ret (_status self).

Definition _check_prompt : M t unit :=
  self <- get ;;
  on_console (Console.sendline []) ;;
  try_except
    (on_console (Console.expect (prompt self)) ;; modify (with_status 1))
    is_TIMEOUT
    (modify (with_status 0)).

(** [run() { echo "MARKER"; sh -c "$@"; echo "$?"; echo "MARKER"; }] *)
Definition wrapper : str :=
  lit "run() { echo " ++ DQUOTE ++ lit "MARKER" ++ DQUOTE
  ++ lit "; sh -c " ++ DQUOTE ++ lit "$@" ++ DQUOTE
  ++ lit "; echo " ++ DQUOTE ++ lit "$?" ++ DQUOTE
  ++ lit "; echo " ++ DQUOTE ++ lit "MARKER" ++ DQUOTE ++ lit "; }".

Definition _inject_run : M t unit :=
  self <- get ;;
  on_console (Console.sendline wrapper) ;;
  on_console (Console.expect (prompt self)) ;;
  ret tt.

Definition cleanup : M t unit := on_console (Console.sendline (lit "exit")).

(** [\d+:\s+(?P<if>\w+)\s+inet\s+(?P<ip>[\d.]+)/(?P<prefix>\d+).*global],
    the pattern of [get_ip] once [re.X] has dropped blanks and comments *)
Definition re_ip : regex :=
  Seq [Plus (Chr re_d); Chr (N.eqb 58);
       Plus (Chr re_s); Grp "if" (Plus (Chr re_w));
       Plus (Chr re_s); Lit (lit "inet");
       Plus (Chr re_s); Grp "ip" (Plus (Chr (fun c => re_d c || (c =? 46))));
       Chr (N.eqb 47); Grp "prefix" (Plus (Chr re_d));
       Star (Chr re_dot); Lit (lit "global")].

(** The loop of [get_ip]: [result[match['if']] = match['ip']] for each
    line that matches. *)
Definition ip_table (lines : list str) : gmap str str :=
  foldl (fun (result : gmap str str) line =>
           match re_match re_ip line with
           | Some m =>
             match group "if" m, group "ip" m with
             | Some i, Some ip => <[i := ip]> result
             | _, _ => result
             end
           | None => result
           end) ∅ lines.

Definition get_ip (interface : str) : M t (option str) :=
  self <- get ;;
  if (_status self =? 1)%Z
  then
    r <- try_except (out <- run_check (lit "ip -o -4 addr show") ;;
                     ret (Some out))
           is_ExecutionError (ret None) ;;
    match r with
    | None => ret None
    | Some ip_string =>
      let result := ip_table ip_string in
      if bool_decide (result = ∅) then ret None
      else
        ip <- of_option (KeyError interface) (result !! interface) ;;
        ret (Some ip)
    end
  else ret None.

(** The pattern of [put_ssh_key] once [re.X] has dropped blanks and
    comments: [ssh-rsa], [\s+], the group [key] on [[a-zA-Z0-9/+=]+],
    [\s+], and the group [comment] on any run of characters other than
    a line feed. *)
Definition re_key : regex :=
  Seq [Lit (lit "ssh-rsa"); Plus (Chr re_s);
       Grp "key" (Plus (Chr (fun c =>
         ascii_alpha c || ascii_digit c || one_of "/+=" c)));
       Plus (Chr re_s); Grp "comment" (Star (Chr re_dot))].

(** [file.readline()]: the first line with its line end. *)
Fixpoint readline (s : str) : str :=
  match s with
  | [] => []
  | c :: s' => if c =? LF then [c] else c :: readline s'
  end.

(** The first loop of [put_ssh_key]: the group dictionaries of the
    lines that match. *)
Definition key_entries (auth_keys : list str) : list groups :=
  omap (re_match re_key) auth_keys.

Definition put_ssh_key (key : str) : M t unit :=
  self <- get ;;
  if (_status self =? 1)%Z
  then
    content <- of_option (FileNotFoundError key) (host_files key) ;;
    let keyline := readline content in
    new_key <- of_option (IOError key) (re_match re_key keyline) ;;
    res <- run (lit "cat ~/.ssh/authorized_keys") ;;
    match res with
    | None => raise TypeError
    | Some (auth_keys, _, exitcode) =>
      (if (exitcode =? 1)%Z
       then run (lit "touch ~/.ssh/authorized_keys") ;; ret tt
       else ret tt) ;;
      let result := key_entries auth_keys in
      if existsb (fun k => bool_decide (group "key" k = group "key" new_key))
           result
      then ret tt
      else
        run_check (lit "echo " ++ DQUOTE ++ keyline ++ DQUOTE
                   ++ lit " > /tmp/keys") ;;
        run_check (lit "chmod 600 /tmp/keys") ;;
        run_check (lit "mount --bind /tmp/keys ~/.ssh/authorized_keys") ;;
        run_check (lit "chmod 600 ~/.ssh/authorized_keys") ;;
        ret tt
    end
  else ret tt.

Definition get_hostname : M t (option str) :=
  self <- get ;;
  if (_status self =? 1)%Z
  then
    r <- try_except (out <- run_check (lit "hostname") ;; ret (Some out))
           is_ExecutionError (ret None) ;;
    match r with
    | None => ret None
    | Some hostname_string =>
      h <- of_option IndexError (head hostname_string) ;;
      ret (Some h)
    end
  else ret None.

Definition __attrs_post_init__ : M t unit :=
  modify (with_status 0) ;;
  await_login ;;
  _check_prompt ;;
  _inject_run ;;
  self <- get ;;
  match keyfile self with
  | [] => ret tt
  | _ => put_ssh_key (keyfile self)
  end.
End ShellDriver.
End ShellDriver.

(** ** What the specification asks of [run], in its own terms

    Quoting for the shell and the deletion of escape sequences, written
    without the regular expressions and the library calls of the code,
    to compare the code with. *)

Module Spec.








End Spec.

(** ** Concrete sessions and lines, used to run the model *)

Module Examples.
Local Open Scope string_scope.
Local Open Scope list_scope.

(** A database with nothing above U+00FF. *)
Definition latin1 : UCD :=
  {| hi_decimal := fun _ => None;
     hi_alnum := fun _ => false;
     hi_space := fun _ => false;
     int_max_str_digits := 4300 |}.

(** What a terminal shows for the given lines, each ended by CR LF. *)
Definition reply (ls : list string) : bytes :=
  concat (map (fun l => encode_ascii l ++ [x0d; x0a]) ls).

Definition session (st : Z) (r : list Console.event) : ShellDriver.t :=
  {| ShellDriver.prompt := lit "# ";
     ShellDriver.login_prompt := lit "login: ";
     ShellDriver.username := lit "root";
     ShellDriver.password := [];
     ShellDriver.keyfile := [];
     ShellDriver._status := st;
     ShellDriver.console :=
       {| Console.sent := []; Console.awaited := []; Console.replies := r |} |}.

Definition echo_hi : bytes :=
  reply ["run 'echo hi'"; "MARKER"; "hi"; "0"; "MARKER"].
Definition false_reply : bytes :=
  reply ["run false"; "MARKER"; "1"; "MARKER"].
Definition done_reply : bytes := reply ["MARKER"; "0"; "MARKER"].


(** A line that breaks at the first write. *)
Definition write_failed : exn := SerialException (lit "write failed").
Definition broken_line : ShellDriver.t :=
  session 0 [Console.Down write_failed].

(** A console on which neither the login prompt nor the shell prompt
    shows up in time, and the prompt is there a moment later. *)
Definition late_prompt : ShellDriver.t :=
  session 0 [Console.Silence; Console.Silence;
             Console.Before (encode_ascii "")].

(** The address listing names [eth1] only. *)
Definition eth1_only : ShellDriver.t :=
  session 1
    [Console.Before (reply ["run 'ip -o -4 addr show'"; "MARKER";
                  "2: eth1    inet 10.0.0.7/8 brd 10.255.255.255 scope global eth1";
                  "0"; "MARKER"])].

(** The listing of the specification's scenario. *)
Definition eth0_listed : ShellDriver.t :=
  session 1
    [Console.Before (reply ["run 'ip -o -4 addr show'"; "MARKER";
                  "2: eth0    inet 192.168.1.5/24 ... global";
                  "0"; "MARKER"])].

(** A public key without a comment, in a file of one line. *)
Definition bare_key : str := lit "ssh-rsa AAAAB3NzaC1yc2E=" ++ [LF].
Definition key_files (path : str) : option str :=
  if str_eqb path (lit "id_rsa.pub") then Some bare_key else None.

(** Two installations of that key on a target that has no
    authorized-keys file at first.  The first [cat] fails, the file is
    touched and the key staged and mounted; the second [cat] lists the
    file as the first installation wrote it: the key line, and the empty
    line that the line feed kept by [readline] adds. *)
Definition twice_bare_key : ShellDriver.t :=
  session 1
    [Console.Before (reply ["run 'cat ~/.ssh/authorized_keys'"; "MARKER";
                  "cat: /root/.ssh/authorized_keys: No such file or directory";
                  "1"; "MARKER"]);
     Console.Before done_reply; Console.Before done_reply;
     Console.Before done_reply; Console.Before done_reply;
     Console.Before done_reply;
     Console.Before
       (reply ["run 'cat ~/.ssh/authorized_keys'"; "MARKER";
               "ssh-rsa AAAAB3NzaC1yc2E="; ""; "0"; "MARKER"]);
     Console.Before done_reply; Console.Before done_reply;
     Console.Before done_reply; Console.Before done_reply].

(** Time limits counted in hundredths of a second, and their [%.2f]. *)
Definition hundredths : Type := N.
Definition fmt_hundredths (t : hundredths) : str :=
  str_of_Z (Z.of_N (t / 100)) ++ lit "."
  ++ str_of_Z (Z.of_N ((t mod 100) / 10))
  ++ str_of_Z (Z.of_N (t mod 10)).

(** A lookup that needs no proxy: the host and port of the descriptor. *)
Definition no_proxy (r : Resource.t) : exn + (str * Z) :=
  match r with
  | Resource.NetworkSerialPort host port _ _ => inr (host, port)
  | Resource.SerialPort _ _ => inl (Exception (lit "not a network resource"))
  end.

Definition line_up (pending : bytes) (arriving : list bytes)
    : PySerial.Device :=
  {| PySerial.link := fun _ => true; PySerial.opens := 0;
     PySerial.closes := 0; PySerial.rx := pending;
     PySerial.feed := arriving; PySerial.tx := [];
     PySerial.unopened := PySerial.port_not_open |}.

Definition line_down : PySerial.Device :=
  {| PySerial.link := fun _ => false; PySerial.opens := 0;
     PySerial.closes := 0; PySerial.rx := []; PySerial.feed := [];
     PySerial.tx := []; PySerial.unopened := PySerial.port_not_open |}.

(** A local device that cannot be opened; the platform call behind
    the count of pending bytes raises a TypeError on it. *)
Definition unplugged : PySerial.Device :=
  {| PySerial.link := fun _ => false; PySerial.opens := 0;
     PySerial.closes := 0; PySerial.rx := []; PySerial.feed := [];
     PySerial.tx := []; PySerial.unopened := TypeError |}.

Definition transport (res : Resource.t) (p : option str) (st : Z)
    (is_open : bool) (d : PySerial.Device) : SerialDriver.t hundredths :=
  {| SerialDriver.port := res; SerialDriver.txdelay := 0;
     SerialDriver.serial :=
       {| PySerial.port := p; PySerial.baudrate := 9600;
          PySerial.timeout := None; PySerial.is_open := is_open;
          PySerial.dev := d |};
     SerialDriver.status := st |}.

Definition lab_port (protocol : string) : Resource.t :=
  Resource.NetworkSerialPort (lit "lab1") 4001 115200 (lit protocol).

(** A target that answers [hostname]. *)
Definition hostname_reply : bytes :=
  reply ["run hostname"; "MARKER"; "target1"; "0"; "MARKER"].

(** A listing with a host-scope entry only. *)
Definition lo_only : ShellDriver.t :=
  session 1
    [Console.Before (reply ["run 'ip -o -4 addr show'"; "MARKER";
                  "1: lo    inet 127.0.0.1/8 scope host lo";
                  "0"; "MARKER"])].

(** A listing with two addresses on [eth0], then one on [eth1]. *)
Definition two_addresses : ShellDriver.t :=
  session 1
    [Console.Before (reply ["run 'ip -o -4 addr show'"; "MARKER";
                  "2: eth0    inet 192.168.1.5/24 scope global eth0";
                  "2: eth0    inet 192.168.1.9/24 scope global secondary eth0";
                  "3: eth1    inet 10.0.0.7/8 scope global eth1";
                  "0"; "MARKER"])].

(** Key files: an RSA key with a comment and a key of another type. *)
Definition commented_key : str := lit "ssh-rsa AAAAB3NzaC1yc2E= me@host" ++ [LF].
Definition pub_files (path : str) : option str :=
  if str_eqb path (lit "id_rsa.pub") then Some commented_key
  else if str_eqb path (lit "id_ed25519.pub")
  then Some (lit "ssh-ed25519 AAAAC3NzaC1lZDI1 me@host" ++ [LF])
  else if str_eqb path (lit "empty.pub") then Some []
  else None.

(** A target whose authorized keys list the commented key. *)
Definition key_listed : ShellDriver.t :=
  session 1
    [Console.Before (reply ["run 'cat ~/.ssh/authorized_keys'"; "MARKER";
                  "ssh-rsa AAAAB3NzaC1yc2E= me@host"; ""; "0"; "MARKER"])].

Definition tty : Resource.t :=
  Resource.SerialPort (Some (lit "/dev/ttyUSB0")) 115200.
End Examples.

(** ** Vocabulary of the statements *)

Section Vocabulary.
Import ShellDriver.

(** The session once [line] went out, [pattern] was awaited and the
    console met what came first. *)
Definition exchanged (line pattern : str) (rest : list Console.event)
    (d : t) : t :=
  with_console
    {| Console.sent := Console.sent (console d) ++ [line];
       Console.awaited := Console.awaited (console d) ++ [pattern];
       Console.replies := rest |} d.

(** What [run] leaves in the session once the command went out and
    the prompt came back. *)
Definition after_run (cmd : str) (rest : list Console.event) (d : t) : t :=
  exchanged (lit "run " ++ shlex_quote cmd) (prompt d) rest d.

(** The lines of a before-text: escape sequences deleted, cut at CR LF. *)
Definition lines_of (text : str) : list str :=
  str_split CRLF (re_sub_del re_vt100 text 1000000).

(** The part of the initialisation that comes before the wrapper. *)
Definition login_and_check : M t unit :=
  modify (with_status 0) ;; await_login ;; _check_prompt.

(** What a console meets when the transport holds. *)
Definition answer (ev : Console.event) : bool :=
  match ev with
  | Console.Before _ | Console.Silence => true
  | Console.Fault _ | Console.Down _ => false
  end.

(** A console on which nothing of what is to come is a fault of the
    transport. *)
Definition calm (c : Console.t) : Prop :=
  forallb answer (Console.replies c) = true.

(** The session once [line] was handed to a transport that is down. *)
Definition refused (line : str) (rest : list Console.event) (d : t) : t :=
  with_console
    {| Console.sent := Console.sent (console d) ++ [line];
       Console.awaited := Console.awaited (console d);
       Console.replies := rest |} d.

(** The line that [run cmd] sends. *)
Definition ran (cmd : str) : str := lit "run " ++ shlex_quote cmd.

(** The attributes a session is configured with. *)
Definition settings (d : t) : str * str * str * str * str :=
  (prompt d, login_prompt d, username d, password d, keyfile d).

(** A method that leaves the status flag and the configuration as
    they were, whether it returns or raises. *)
Definition keeps {A} (m : M t A) : Prop :=
  forall d, _status (snd (m d)) = _status d
            /\ settings (snd (m d)) = settings d.

(** A step that, on a console without faults to come, returns, sends
    the given lines and touches neither the status flag nor the
    configuration. *)
Definition emits {A} (m : M t A) (lines : list str) : Prop :=
  forall d, calm (console d) -> exists a d',
    m d = (inr a, d')
    /\ _status d' = _status d
    /\ settings d' = settings d
    /\ Console.sent (console d') = Console.sent (console d) ++ lines
    /\ calm (console d').

(** The password as [await_login] sends it: not at all when empty. *)
Definition password_lines (d : t) : list str :=
  match password d with
  | [] => []
  | _ => [password d]
  end.

(** Lines as a terminal shows them, each ended by CR LF. *)
Definition unlines (ls : list str) : str :=
  concat (map (fun l => l ++ CRLF) ls).

(** Text of 7-bit characters without an escape character. *)
Definition plain (text : str) : Prop :=
  Forall (fun c => c < 128 /\ c <> ESC) text.

(** Whether the next [expect] finds its pattern. *)
Definition answered (c : Console.t) : bool :=
  match Console.replies c with
  | Console.Before _ :: _ => true
  | _ => false
  end.
End Vocabulary.

Section FramingVocabulary.
Context `{UCD}.

(** An exit status that, printed in decimal, is read back by [int],
    is not the marker and holds no CR. *)
Definition reads_back (n : Z) : bool :=
  bool_decide (py_int (str_of_Z n) = Some n)
  && negb (str_eqb (str_of_Z n) ShellDriver.MARKER)
  && forallb (fun c => negb (c =? CR)) (str_of_Z n).
End FramingVocabulary.

Section TransportVocabulary.
Context {float : Type}.
Import SerialDriver.

(** The driver with its serial object aimed at [target] at [speed]. *)
Definition aimed (target : str) (speed : Z) (d : t float) : t float :=
  with_serial
    {| PySerial.port := Some target; PySerial.baudrate := speed;
       PySerial.timeout := PySerial.timeout (serial d);
       PySerial.is_open := PySerial.is_open (serial d);
       PySerial.dev := PySerial.dev (serial d) |} d.

Definition url (scheme host : str) (port : Z) : str :=
  scheme ++ host ++ lit ":" ++ str_of_Z port ++ lit "/".

(** The driver with its serial object given the path [p] and [speed]. *)
Definition pointed (p : option str) (speed : Z) (d : t float) : t float :=
  with_serial
    {| PySerial.port := p; PySerial.baudrate := speed;
       PySerial.timeout := PySerial.timeout (serial d);
       PySerial.is_open := PySerial.is_open (serial d);
       PySerial.dev := PySerial.dev (serial d) |} d.

(** The driver with its serial object given the path [p], the speed
    left as it was. *)
Definition repointed (p : option str) (d : t float) : t float :=
  with_serial
    {| PySerial.port := p;
       PySerial.baudrate := PySerial.baudrate (serial d);
       PySerial.timeout := PySerial.timeout (serial d);
       PySerial.is_open := PySerial.is_open (serial d);
       PySerial.dev := PySerial.dev (serial d) |} d.

(** What activation does once the target is known: the serial object
    is given the target and the speed, a negative speed being refused,
    and [open] runs. *)
Definition activated (target : option str) (speed : Z) (d : t float)
    : (exn + unit) * t float :=
  if (speed <? 0)%Z
  then (inl ValueError, repointed target d)
  else open (pointed target speed d).

(** The status flag says open exactly when the serial object is. *)
Definition coherent (d : t float) : Prop :=
  status d <> 0%Z <-> PySerial.is_open (serial d) = true.

(** The driver once one more physical attempt to open was made. *)
Definition attempted (d : t float) : t float :=
  let dv := PySerial.dev (serial d) in
  with_serial
    (PySerial.with_dev
       {| PySerial.link := PySerial.link dv;
          PySerial.opens := S (PySerial.opens dv);
          PySerial.closes := PySerial.closes dv;
          PySerial.rx := PySerial.rx dv;
          PySerial.feed := PySerial.feed dv;
          PySerial.tx := PySerial.tx dv;
          PySerial.unopened := PySerial.unopened dv |}
       (serial d)) d.

(** The driver with its port open and the status flag at 1. *)
Definition opened (d : t float) : t float :=
  with_status 1 (with_serial (PySerial.with_is_open true (serial d)) d).

(** The message of a failed [open]. *)
Definition could_not_open (p : option str) : exn :=
  SerialException (lit "Could not open serial port " ++ str_of_opt p).

(** A descriptor the constructor accepts. *)
Definition known (res : Resource.t) : Prop :=
  match res with
  | Resource.SerialPort _ _ => True
  | Resource.NetworkSerialPort _ _ _ protocol =>
    protocol = lit "rfc2217" \/ protocol = lit "raw"
  end.
End TransportVocabulary.

(** ** Properties of the shell session *)

Ltac unfold_py :=
  cbv [bind ret raise get modify try_except zoom of_option lift_result
       ShellDriver.on_console SerialDriver.on_serial
       Console.sendline Console.expect].

Section ListIndex.
Lemma str_eqb_true (a b : str) : str_eqb a b = true <-> a = b.
Proof. unfold str_eqb. apply bool_decide_eq_true. Qed.

Lemma str_eqb_false (a b : str) : str_eqb a b = false <-> a <> b.
Proof. unfold str_eqb. apply bool_decide_eq_false. Qed.

Lemma list_index_first (x : str) (pre post : list str) :
  x ∉ pre -> list_index x (pre ++ x :: post) = Some (length pre).
Proof.
  induction pre as [|y pre IH]; intros Hnot; simpl.
  - replace (str_eqb x x) with true; [done|].
    symmetry. by apply str_eqb_true.
  - apply not_elem_of_cons in Hnot as [Hne Hnot].
    replace (str_eqb y x) with false.
    + by rewrite IH.
    + symmetry. apply str_eqb_false. congruence.
Qed.


Lemma list_index_absent (x : str) (l : list str) :
  x ∉ l -> list_index x l = None.
Proof.
  induction l as [|y l IH]; intros Hnot; simpl; [done|].
  apply not_elem_of_cons in Hnot as [Hne Hnot].
  replace (str_eqb y x) with false.
  - by rewrite IH.
  - symmetry. apply str_eqb_false. congruence.
Qed.

Lemma sub_go_budget (r : regex) (s : str) :
  forall (skip : nat) (b : N),
    (length s <= N.to_nat b)%nat ->
    sub_go r skip (Some b) s = sub_go r skip None s.
Proof.
  induction s as [|c s IH]; intros skip b Hlen; [done|].
  cbn [sub_go length] in *. destruct skip as [|k].
  - rewrite bool_decide_eq_false_2 by (intros [= ->]; simpl in Hlen; lia).
    rewrite (bool_decide_eq_false_2 (None = Some 0)) by done.
    destruct (re_match_len r (c :: s)) as [[|m]|].
    + f_equal. apply IH. lia.
    + cbn [fmap option_fmap option_map]. apply IH. lia.
    + f_equal. apply IH. lia.
  - apply IH. lia.
Qed.

(** A count that is no less than the length of the text is as good as
    no count. *)
Lemma re_sub_del_all (r : regex) (s : str) (count : N) :
  N.of_nat (length s) <= count -> re_sub_del r s count = re_sub_del r s 0.
Proof.
  intros Hlen. unfold re_sub_del. destruct (N.eqb_spec count 0) as [->|Hne].
  - done.
  - change (0 =? 0) with true. cbv iota. apply sub_go_budget. lia.
Qed.

Lemma drop_past {A} (x : A) (pre post : list A) :
  drop (S (length pre)) (pre ++ x :: post) = post.
Proof. induction pre as [|y pre IH]; simpl; [by rewrite drop_0|done]. Qed.

End ListIndex.

(** ** The calls of the code against the terms of the specification *)

Section Reference.
Import ShellDriver.














End Reference.

Section Run.
Context `{UCD}.
Import ShellDriver.

(** C3: on a session whose status flag is not 1, [run] returns [None],
    sends nothing to the console and raises nothing, for every command
    string. *)
Theorem run_not_ready (d : t) (cmd : str) :
  _status d <> 1%Z -> run cmd d = (inr None, d).
Proof.
  intros Hst. unfold run. unfold_py.
  by apply Z.eqb_neq in Hst as ->.
Qed.

(** C10: on a session whose status flag is not 1, [run_check] neither
    returns an absent result nor raises an ExecutionError: [run] gives
    [None], the subscript on it faults with a TypeError, for every
    command string, and nothing is sent. *)
Theorem run_check_not_ready (d : t) (cmd : str) :
  _status d <> 1%Z -> run_check cmd d = (inl TypeError, d).
Proof.
  intros Hst. unfold run_check, run. unfold_py.
  by apply Z.eqb_neq in Hst as ->.
Qed.

Lemma run_ready_not_None (d d' : t) (cmd : str) :
  _status d = 1%Z -> run cmd d <> (inr None, d').
Proof.
  intros Hst. unfold run. unfold_py. rewrite Hst. simpl.
  repeat (match goal with
          | |- context [match ?x with _ => _ end] => destruct x
          end; simpl; try congruence).
Qed.

(** C2: on a session whose status flag is 1, [run_check cmd] returns
    exactly the output lines of [run cmd] when the exit code is 0 and
    raises an ExecutionError carrying [cmd] when it is not; an
    exception of [run] passes through, and [run] has no absent result
    there. *)
Theorem run_check_ready (d : t) (cmd : str) :
  _status d = 1%Z ->
  (forall out diag code d',
      run cmd d = (inr (Some (out, diag, code)), d') ->
      run_check cmd d
      = (if (code =? 0)%Z then inr out else inl (ExecutionError cmd), d'))
  /\ (forall e d', run cmd d = (inl e, d') -> run_check cmd d = (inl e, d'))
  /\ (forall d', run cmd d <> (inr None, d')).
Proof.
  intros Hst. split_and!.
  - intros out diag code d' Hrun. unfold run_check, bind. rewrite Hrun.
    by destruct (code =? 0)%Z.
  - intros e d' Hrun. unfold run_check, bind. by rewrite Hrun.
  - intros d'. by apply run_ready_not_None.
Qed.

(** When the prompt does not come back, the Timeout of [expect] leaves
    [run], the command sent. *)
Lemma run_ready_timeout (d : t) (cmd : str) (rest : list Console.event) :
  _status d = 1%Z ->
  Console.replies (console d) = Console.Silence :: rest ->
  run cmd d = (inl Console.timed_out, after_run cmd rest d).
Proof.
  intros Hst Hrep. unfold run. unfold_py. rewrite Hst. cbn.
  by rewrite Hrep.
Qed.

(** A before-text without a MARKER line makes [run] raise. *)
Lemma run_ready_no_marker (d : t) (cmd : str) (before : bytes)
    (rest : list Console.event) (text : str) :
  _status d = 1%Z ->
  Console.replies (console d) = Console.Before before :: rest ->
  utf8_decode before = Some text ->
  MARKER ∉ lines_of text ->
  run cmd d = (inl ValueError, after_run cmd rest d).
Proof.
  intros Hst Hrep Hdec Hnot. unfold run. unfold_py. rewrite Hst. cbn.
  rewrite Hrep. cbn. rewrite Hdec. cbn.
  fold (lines_of text). by rewrite list_index_absent.
Qed.


End Run.

Section Session.
Context `{UCD}.
Variable host_files : str -> option str.
Import ShellDriver.

(** [get_ip] in terms of what [run_check] gave. *)
Lemma get_ip_cases (d : t) (interface : str) :
  _status d = 1%Z ->
  get_ip interface d
  = match run_check (lit "ip -o -4 addr show") d with
    | (inl e, d') =>
      if is_ExecutionError e then (inr None, d') else (inl e, d')
    | (inr lines, d') =>
      if bool_decide (ip_table lines = ∅) then (inr None, d')
      else match ip_table lines !! interface with
           | Some ip => (inr (Some ip), d')
           | None => (inl (KeyError interface), d')
           end
    end.
Proof.
  intros Hst. unfold get_ip. unfold_py. rewrite Hst. cbn.
  destruct (run_check _ d) as [[e|lines] d']; cbn.
  - by destruct (is_ExecutionError e).
  - destruct (bool_decide _); [done|].
    by destruct (ip_table lines !! interface).
Qed.

(** A listing that names other interfaces only makes [get_ip] raise. *)
Lemma get_ip_unlisted (d d' : t) (interface other ip : str)
    (lines : list str) :
  _status d = 1%Z ->
  run_check (lit "ip -o -4 addr show") d = (inr lines, d') ->
  ip_table lines !! other = Some ip ->
  ip_table lines !! interface = None ->
  get_ip interface d = (inl (KeyError interface), d').
Proof.
  intros Hst Hrun Hother Hnone. rewrite get_ip_cases by done.
  rewrite Hrun, Hnone. rewrite bool_decide_eq_false_2; [done|].
  intros Hempty. by rewrite Hempty, lookup_empty in Hother.
Qed.

Lemma get_ip_listed (d d' : t) (interface ip : str) (lines : list str) :
  _status d = 1%Z ->
  run_check (lit "ip -o -4 addr show") d = (inr lines, d') ->
  ip_table lines !! interface = Some ip ->
  get_ip interface d = (inr (Some ip), d').
Proof.
  intros Hst Hrun Hip. rewrite get_ip_cases by done.
  rewrite Hrun, Hip. rewrite bool_decide_eq_false_2; [done|].
  intros Hempty. by rewrite Hempty, lookup_empty in Hip.
Qed.

Lemma get_ip_command_failed (d d' : t) (interface cmd : str) :
  _status d = 1%Z ->
  run_check (lit "ip -o -4 addr show") d = (inl (ExecutionError cmd), d') ->
  get_ip interface d = (inr None, d').
Proof.
  intros Hst Hrun. rewrite get_ip_cases by done. by rewrite Hrun.
Qed.

(** A key that the target lists is not installed again: only the
    [cat] goes out. *)
Lemma put_ssh_key_present (d d' : t) (key content line : str)
    (new_key entry : groups) (auth_keys diag : list str) (exitcode : Z) :
  _status d = 1%Z ->
  host_files key = Some content ->
  re_match re_key (readline content) = Some new_key ->
  run (lit "cat ~/.ssh/authorized_keys") d
  = (inr (Some (auth_keys, diag, exitcode)), d') ->
  exitcode <> 1%Z ->
  line ∈ auth_keys ->
  re_match re_key line = Some entry ->
  group "key" entry = group "key" new_key ->
  put_ssh_key host_files key d = (inr tt, d').
Proof.
  intros Hst Hfile Hnew Hcat Hcode Hin Hentry Hsame.
  unfold put_ssh_key. unfold_py. rewrite Hst, Hfile. cbv beta iota.
  change (1 =? 1)%Z with true. cbv iota. rewrite Hnew. cbv beta iota.
  rewrite Hcat. cbv beta iota.
  apply Z.eqb_neq in Hcode as ->. cbv beta iota.
  replace (existsb _ (key_entries auth_keys)) with true; [done|].
  symmetry. apply existsb_exists. exists entry. split.
  - apply list_elem_of_In. unfold key_entries.
    apply list_elem_of_omap. by exists line.
  - by apply bool_decide_eq_true.
Qed.
End Session.

(** ** Properties of the byte transport *)

Section Transport.
Context {float : Type}.
Variable fmt_2f : float -> str.
Variable get_host_and_port : Resource.t -> exn + (str * Z).
Import SerialDriver.

Lemma pyserial_open_raises (s s' : PySerial.Serial float) (e : exn) :
  PySerial.open s = (inl e, s') -> is_SerialException e = true.
Proof.
  unfold PySerial.open.
  destruct (PySerial.port s); [|by intros [= <- <-]].
  destruct (PySerial.is_open s); [by intros [= <- <-]|].
  destruct (PySerial.link _ _); [done|by intros [= <- <-]].
Qed.

Lemma open_when_open (d : t float) :
  status d <> 0%Z -> open d = (inr tt, d).
Proof.
  intros Hst. unfold open. unfold_py. by apply Z.eqb_neq in Hst as ->.
Qed.

Lemma close_when_closed (d : t float) :
  status d = 0%Z -> close d = (inr tt, d).
Proof. intros Hst. unfold close. unfold_py. by rewrite Hst. Qed.

(** What [open] does to a driver whose status flag is 0. *)
Lemma open_when_closed (d : t float) :
  status d = 0%Z ->
  match PySerial.open (serial d) with
  | (inr _, s') => open d = (inr tt, with_status 1 (with_serial s' d))
  | (inl _, s') =>
    open d = (inl (SerialException
                     (lit "Could not open serial port "
                      ++ str_of_opt (PySerial.port s'))),
              with_serial s' d)
  end.
Proof.
  intros Hst. unfold open. unfold_py. rewrite Hst. simpl.
  destruct (PySerial.open (serial d)) as [[e|[]] s'] eqn:E; simpl; [|done].
  by rewrite (pyserial_open_raises _ _ _ E).
Qed.

(** C6: [open] on a driver that is open returns without touching
    anything, so no second physical open is made; [close] on a driver
    that is closed likewise, also after an [open] that failed; and for
    every state [open] twice is [open] once, [close] twice is [close]
    once. *)
Theorem open_close_idempotent (d : t float) :
  (status d <> 0%Z -> open d = (inr tt, d))
  /\ (status d = 0%Z -> close d = (inr tt, d))
  /\ (forall e d', open d = (inl e, d') -> close d' = (inr tt, d'))
  /\ (open ;; open) d = open d
  /\ (close ;; close) d = close d.
Proof.
  split_and!.
  - apply open_when_open.
  - apply close_when_closed.
  - intros e d' Hopen. apply close_when_closed.
    destruct (decide (status d = 0%Z)) as [Hst|Hst].
    + pose proof (open_when_closed d Hst) as Hc.
      destruct (PySerial.open (serial d)) as [[e'|[]] s'];
        rewrite Hc in Hopen; [|done].
      by injection Hopen as _ <-.
    + by rewrite open_when_open in Hopen.
  - unfold bind at 1.
    destruct (decide (status d = 0%Z)) as [Hst|Hst].
    + pose proof (open_when_closed d Hst) as Hc.
      destruct (PySerial.open (serial d)) as [[e'|[]] s'];
        rewrite Hc; [done|].
      by rewrite open_when_open.
    + by rewrite !open_when_open.
  - unfold bind at 1.
    destruct (decide (status d = 0%Z)) as [Hst|Hst].
    + by rewrite !close_when_closed.
    + unfold close at 1 3. unfold_py.
      apply Z.eqb_neq in Hst as ->. simpl.
      destruct (PySerial.close (serial d)) as [[e|[]] s'] eqn:E; simpl.
      * unfold PySerial.close in E.
        by destruct (PySerial.is_open (serial d)).
      * by rewrite close_when_closed.
Qed.

Lemma with_serial_same (d : t float) : with_serial (serial d) d = d.
Proof. by destruct d. Qed.

(** [on_activate] on a driver whose serial object is closed. *)
Lemma on_activate_closed_eq (d : t float) :
  PySerial.is_open (serial d) = false ->
  on_activate get_host_and_port d
  = match port d with
    | Resource.SerialPort p speed => activated p speed d
    | Resource.NetworkSerialPort _ _ speed protocol =>
      match get_host_and_port (port d) with
      | inl e => (inl e, d)
      | inr (h, p) =>
        if str_eqb protocol (lit "rfc2217")
        then activated (Some (url (lit "rfc2217://") h p)) speed d
        else if str_eqb protocol (lit "raw")
        then activated (Some (url (lit "socket://") h p)) speed d
        else (inl unknown_protocol, d)
      end
    end.
Proof.
  intros Hclosed. destruct d as [res delay ser st]. cbn in *.
  unfold on_activate, activated, pointed, repointed, url. unfold_py. cbn.
  destruct res as [p speed|host hport speed protocol].
  - unfold PySerial.set_port, PySerial.set_baudrate. unfold_py. cbn.
    rewrite Hclosed. by destruct (speed <? 0)%Z.
  - destruct (get_host_and_port _) as [e|[h p]]; [done|].
    destruct (str_eqb protocol (lit "rfc2217")).
    + unfold PySerial.set_port, PySerial.set_baudrate. unfold_py. cbn.
      rewrite Hclosed. by destruct (speed <? 0)%Z.
    + destruct (str_eqb protocol (lit "raw")); [|done].
      unfold PySerial.set_port, PySerial.set_baudrate. unfold_py. cbn.
      rewrite Hclosed. by destruct (speed <? 0)%Z.
Qed.

(** [open] on a driver whose status flag is 0 and whose serial object
    is closed. *)
Lemma open_closed_eq (d : t float) :
  status d = 0%Z ->
  PySerial.is_open (serial d) = false ->
  open d
  = match PySerial.port (serial d) with
    | None => (inl (could_not_open None), d)
    | Some p =>
      if PySerial.link (PySerial.dev (serial d))
           (PySerial.opens (PySerial.dev (serial d)))
      then (inr tt, opened (attempted d))
      else (inl (could_not_open (Some p)), attempted d)
    end.
Proof.
  intros Hst Hclosed. destruct d as [res delay [p b tm o dv] st].
  cbn in *. subst st o.
  unfold open, PySerial.open, opened, attempted, could_not_open.
  unfold_py. cbn.
  destruct p as [p|]; [|done]. by destruct (PySerial.link dv _).
Qed.

(** C7, as the code has it.  A proxied descriptor whose sub-protocol is
    neither rfc2217 nor raw is refused with the unknown-protocol error
    when the driver is constructed; activation of a driver bound to
    such a descriptor raises too, the error of the proxy lookup if that
    failed and the unknown-protocol error otherwise, and changes
    nothing.  For rfc2217 and raw, with the lookup answered, on a
    closed driver (status flag 0, serial object closed): with a speed
    that is not negative, activation sets the target to
    [rfc2217://host:port/] or [socket://host:port/] and the speed, and
    then runs [open] itself, which makes one attempt on the device; if
    the attempt succeeds activation returns with the status flag at 1
    and the serial object open on that target, and if it fails
    activation raises the could-not-open error.  A negative speed is
    refused with a ValueError once the target is set, and no attempt to
    open is made. *)
Theorem on_activate_proxied (d : t float) (host : str) (hport speed : Z)
    (protocol : str) :
  port d = Resource.NetworkSerialPort host hport speed protocol ->
  (protocol <> lit "rfc2217" -> protocol <> lit "raw" ->
   (forall (delay : float) (dv : PySerial.Device),
       __attrs_post_init__ (port d) delay dv = inl unknown_protocol)
   /\ on_activate get_host_and_port d
      = (inl match get_host_and_port (port d) with
             | inl e => e
             | inr _ => unknown_protocol
             end, d))
  /\ (forall (scheme h : str) (p : Z),
        (protocol = lit "rfc2217" /\ scheme = lit "rfc2217://")
        \/ (protocol = lit "raw" /\ scheme = lit "socket://") ->
        get_host_and_port (port d) = inr (h, p) ->
        status d = 0%Z ->
        PySerial.is_open (serial d) = false ->
        let target := url scheme h p in
        let aim := aimed target speed d in
        ((0 <= speed)%Z ->
         on_activate get_host_and_port d = open aim
         /\ open aim
            = (if PySerial.link (PySerial.dev (serial d))
                    (PySerial.opens (PySerial.dev (serial d)))
               then (inr tt, opened (attempted aim))
               else (inl (could_not_open (Some target)), attempted aim))
         /\ status (opened (attempted aim)) = 1%Z
         /\ PySerial.is_open (serial (opened (attempted aim))) = true
         /\ PySerial.port (serial (opened (attempted aim))) = Some target
         /\ PySerial.baudrate (serial (opened (attempted aim))) = speed)
        /\ ((speed < 0)%Z ->
            on_activate get_host_and_port d
            = (inl ValueError, repointed (Some target) d))).
Proof.
  intros Hport. split.
  - intros Hr Hs. split.
    + intros delay dv. rewrite Hport. cbn.
      apply str_eqb_false in Hr as ->. by apply str_eqb_false in Hs as ->.
    + unfold on_activate. destruct d as [res delay ser st]. cbn in *.
      subst res. unfold_py. cbn.
      apply str_eqb_false in Hr as ->. apply str_eqb_false in Hs as ->.
      by destruct (get_host_and_port _) as [e|[h p]].
  - intros scheme h p Hproto Hproxy Hst Hclosed target aim.
    assert (Hact : on_activate get_host_and_port d
                   = activated (Some target) speed d).
    { rewrite on_activate_closed_eq by done. rewrite Hport, <- Hport, Hproxy.
      destruct Hproto as [[-> ->]|[-> ->]].
      - by rewrite (proj2 (str_eqb_true _ _) eq_refl).
      - replace (str_eqb (lit "raw") (lit "rfc2217")) with false
          by (by vm_compute).
        by rewrite (proj2 (str_eqb_true _ _) eq_refl). }
    rewrite Hact. unfold activated. split.
    + intros Hspeed. apply Z.ltb_ge in Hspeed as ->.
      split; [done|]. split; [by rewrite open_closed_eq|].
      by destruct d as [res delay [p0 b tm o dv] st].
    + intros Hspeed. by apply Z.ltb_lt in Hspeed as ->.
Qed.

End Transport.

(** ** More on the shell session *)

Section SessionFrames.
Context `{UCD}.
Variable host_files : str -> option str.
Import ShellDriver.

Lemma calm_rest (ev : Console.event) (r : list Console.event)
    (c c' : Console.t) :
  Console.replies c = ev :: r -> Console.replies c' = r -> calm c -> calm c'.
Proof.
  unfold calm. intros -> -> Hc. cbn in Hc.
  by apply andb_true_iff in Hc as [_ Hc].
Qed.

Lemma calm_no_fault (e : exn) (r : list Console.event) (c : Console.t) :
  calm c ->
  Console.replies c <> Console.Fault e :: r
  /\ Console.replies c <> Console.Down e :: r.
Proof.
  unfold calm. intros Hc. split; intros Hr; by rewrite Hr in Hc.
Qed.

Lemma emits_ret {A} (a : A) : emits (ret a) [].
Proof. intros d Hc. exists a, d. by rewrite app_nil_r. Qed.

Lemma emits_bind {A B} (m : M t A) (k : A -> M t B) (l1 l2 : list str) :
  emits m l1 -> (forall a, emits (k a) l2) -> emits (bind m k) (l1 ++ l2).
Proof.
  intros Hm Hk d Hc. unfold bind.
  destruct (Hm d Hc) as (a & d1 & -> & Hs1 & Hc1 & Hl1 & Hq1).
  destruct (Hk a d1 Hq1) as (b & d2 & -> & Hs2 & Hc2 & Hl2 & Hq2).
  exists b, d2. split_and!; [done|congruence|congruence| |done].
  by rewrite Hl2, Hl1, app_assoc.
Qed.

Lemma emits_sendline (line : str) :
  emits (on_console (Console.sendline line)) [line].
Proof.
  intros d Hc. unfold on_console, zoom, Console.sendline.
  destruct (Console.replies (console d)) as [|[b| |e|e] r] eqn:E;
    [| | | |by destruct (calm_no_fault e r _ Hc) as [_ Hd]];
    eexists _, _; (split_and!; [reflexivity|done|done|done|]);
    unfold calm in *; rewrite E in Hc; exact Hc.
Qed.

Lemma emits_expect_or_pass (p : str) : emits (expect_or_pass p) [].
Proof.
  intros d Hc. unfold expect_or_pass. unfold_py.
  destruct (Console.replies (console d)) as [|[b| |e|e] r] eqn:E; cbn.
  - eexists _, _. rewrite app_nil_r. by split_and!.
  - eexists _, _. rewrite app_nil_r. split_and!; try done.
    by eapply calm_rest.
  - eexists _, _. rewrite app_nil_r. split_and!; try done.
    by eapply calm_rest.
  - by destruct (calm_no_fault e r _ Hc) as [Hf _].
  - by destruct (calm_no_fault e r _ Hc) as [_ Hd].
Qed.

Lemma await_login_emits (d : t) :
  calm (console d) ->
  exists d',
    await_login d = (inr tt, d')
    /\ _status d' = _status d
    /\ settings d' = settings d
    /\ Console.sent (console d')
       = Console.sent (console d) ++ [[]; username d] ++ password_lines d
    /\ calm (console d').
Proof.
  intros Hcalm.
  assert (He : emits
            (on_console (Console.sendline []) ;;
             expect_or_pass (login_prompt d) ;;
             on_console (Console.sendline (username d)) ;;
             match password d with
             | [] => ret tt
             | _ => expect_or_pass (lit "Password: ") ;;
                    on_console (Console.sendline (password d))
             end)
            ([[]] ++ [] ++ [username d] ++ password_lines d)).
  { apply emits_bind; [apply emits_sendline|intros _].
    apply emits_bind; [apply emits_expect_or_pass|intros _].
    apply emits_bind; [apply emits_sendline|intros _].
    unfold password_lines. destruct (password d) as [|c pw].
    - apply emits_ret.
    - apply (emits_bind _ _ [] [_]);
        [apply emits_expect_or_pass|intros _; apply emits_sendline]. }
  destruct (He d Hcalm) as ([] & d' & Heq & Hs & Hc & Hl & Hq).
  exists d'. split_and!; [exact Heq|done..].
Qed.

(** X1: on a console whose transport does not fail, [await_login]
    returns whether the login and password prompts show up or not; it
    sends an empty line, the user name and, only when a password is
    configured, the password, and leaves the status flag and the
    configuration alone.  The sends are not guarded: a transport that
    is down at the first of them makes [await_login] raise the fault,
    with nothing awaited. *)
Theorem await_login_logs_in (d : t) :
  (calm (console d) ->
   exists d',
     await_login d = (inr tt, d')
     /\ _status d' = _status d
     /\ settings d' = settings d
     /\ Console.sent (console d')
        = Console.sent (console d) ++ [[]; username d] ++ password_lines d)
  /\ (forall e rest,
        Console.replies (console d) = Console.Down e :: rest ->
        await_login d = (inl e, refused [] rest d)).
Proof.
  split.
  - intros Hcalm.
    destruct (await_login_emits d Hcalm) as (d' & Heq & Hs & Hc & Hl & _).
    by exists d'.
  - intros e rest Hrep. unfold await_login. unfold_py. cbn.
    by rewrite Hrep.
Qed.

Lemma _check_prompt_outcome (d : t) :
  calm (console d) ->
  exists d',
    _check_prompt d = (inr tt, d')
    /\ _status d' = (if answered (console d) then 1 else 0)%Z
    /\ settings d' = settings d
    /\ Console.sent (console d') = Console.sent (console d) ++ [[]]
    /\ calm (console d').
Proof.
  intros Hc. unfold _check_prompt, answered. unfold_py.
  destruct (Console.replies (console d)) as [|[b| |e|e] r] eqn:E; cbn.
  - eexists. by split_and!.
  - eexists. split_and!; try done. by eapply calm_rest.
  - eexists. split_and!; try done. by eapply calm_rest.
  - by destruct (calm_no_fault e r _ Hc) as [Hf _].
  - by destruct (calm_no_fault e r _ Hc) as [_ Hd].
Qed.

(** X2: [_check_prompt] sends one empty line and uses up what the
    console meets next.  It waits for the prompt of the session and
    sets the status flag to 1 when the prompt matched and to 0 when the
    wait timed out, whatever the flag was; a fault of the transport,
    under the send or under the wait, leaves [_check_prompt] as an
    exception and the flag as it was. *)
Theorem check_prompt_sets_status (d : t) :
  exists r d',
    _check_prompt d = (r, d')
    /\ settings d' = settings d
    /\ Console.sent (console d') = Console.sent (console d) ++ [[]]
    /\ Console.replies (console d') = tail (Console.replies (console d))
    /\ let waited :=
         Console.awaited (console d')
         = Console.awaited (console d) ++ [prompt d] in
       match Console.replies (console d) with
       | Console.Before _ :: _ => r = inr tt /\ _status d' = 1%Z /\ waited
       | Console.Silence :: _ | [] => r = inr tt /\ _status d' = 0%Z /\ waited
       | Console.Fault e :: _ =>
         waited
         /\ if is_TIMEOUT e then r = inr tt /\ _status d' = 0%Z
            else r = inl e /\ _status d' = _status d
       | Console.Down e :: _ =>
         r = inl e /\ _status d' = _status d
         /\ Console.awaited (console d') = Console.awaited (console d)
       end.
Proof.
  unfold _check_prompt. unfold_py.
  destruct (Console.replies (console d)) as [|[b| |e|e] rest]; cbn;
    try (by eexists _, _).
  destruct (is_TIMEOUT e); by eexists _, _.
Qed.

(** X3: with no key file configured and a transport that does not
    fail, the initialisation sends the same lines whatever the far end
    answers: an empty line, the user name, the password if there is
    one, an empty line and the wrapper definition.  It returns or
    raises the Timeout of the last wait for the prompt, and nothing
    else; the status flag ends at 0 or 1. *)
Theorem init_sends_fixed_lines (d : t) :
  keyfile d = [] ->
  calm (console d) ->
  let r := __attrs_post_init__ host_files d in
  Console.sent (console (snd r))
  = Console.sent (console d)
    ++ [[]; username d] ++ password_lines d ++ [[]; wrapper]
  /\ (fst r = inr tt \/ fst r = inl Console.timed_out)
  /\ (_status (snd r) = 0%Z \/ _status (snd r) = 1%Z)
  /\ settings (snd r) = settings d.
Proof.
  intros Hkey Hcalm r.
  assert (Hr : exists res d',
             __attrs_post_init__ host_files d = (res, d')
             /\ Console.sent (console d')
                = Console.sent (console d)
                  ++ [[]; username d] ++ password_lines d ++ [[]; wrapper]
             /\ (res = inr tt \/ res = inl Console.timed_out)
             /\ (_status d' = 0%Z \/ _status d' = 1%Z)
             /\ settings d' = settings d).
  { unfold __attrs_post_init__.
    unfold bind at 1, modify. unfold bind at 1.
    destruct (await_login_emits (with_status 0 d) Hcalm)
      as (d1 & -> & _ & Hc1 & Hl1 & Hq1).
    unfold bind at 1.
    destruct (_check_prompt_outcome d1 Hq1)
      as (d2 & -> & Hs2 & Hc2 & Hl2 & Hq2).
    assert (Hc : settings d2 = settings d) by (by rewrite Hc2, Hc1).
    assert (Hl : Console.sent (console d2)
                 = Console.sent (console d)
                   ++ [[]; username d] ++ password_lines d ++ [[]]).
    { rewrite Hl2, Hl1. cbn. by rewrite <- !app_assoc. }
    assert (Hst : _status d2 = 0%Z \/ _status d2 = 1%Z)
      by (rewrite Hs2; destruct (answered _); auto).
    assert (Hk2 : keyfile d2 = []) by (injection Hc as _ _ _ _ ->; done).
    unfold _inject_run. unfold_py. cbn.
    destruct (Console.replies (console d2)) as [|[b| |e|e] rest] eqn:E;
      [| | |by destruct (calm_no_fault e rest _ Hq2) as [Hf _]
       |by destruct (calm_no_fault e rest _ Hq2) as [_ Hd]];
      cbn; rewrite ?Hk2; cbn; eexists _, _; (split; [reflexivity|]); cbn;
      rewrite Hl; (split_and!; [|auto|done|done]);
      cbn; rewrite <- !app_assoc; cbn; by rewrite <- !app_assoc. }
  destruct Hr as (res & d' & Heq & Hr). subst r. by rewrite Heq.
Qed.

Lemma keeps_ret {A} (a : A) : keeps (ret a).
Proof. by intros d. Qed.

Lemma keeps_raise {A} (e : exn) : keeps (@raise t A e).
Proof. by intros d. Qed.

Lemma keeps_of_option {A} (e : exn) (o : option A) : keeps (of_option e o).
Proof. destruct o; [apply keeps_ret|apply keeps_raise]. Qed.

Lemma keeps_bind {A B} (m : M t A) (k : A -> M t B) :
  keeps m -> (forall a, keeps (k a)) -> keeps (bind m k).
Proof.
  intros Hm Hk d. unfold bind. specialize (Hm d).
  destruct (m d) as [[e|a] d1]; cbn in *; [done|].
  destruct (Hk a d1) as [Hs Hc]. destruct Hm as [Hs1 Hc1].
  split; congruence.
Qed.

Lemma keeps_get {A} (k : t -> M t A) :
  (forall self, keeps (k self)) -> keeps (bind get k).
Proof. intros Hk d. apply (Hk d d). Qed.

Lemma keeps_try_except {A} (m h : M t A) (c : exn -> bool) :
  keeps m -> keeps h -> keeps (try_except m c h).
Proof.
  intros Hm Hh d. unfold try_except. specialize (Hm d).
  destruct (m d) as [[e|a] d1]; cbn in *; [|done].
  destruct (c e); [|done].
  destruct (Hh d1) as [Hs Hc]. destruct Hm as [Hs1 Hc1].
  split; congruence.
Qed.

Lemma keeps_sendline (line : str) : keeps (on_console (Console.sendline line)).
Proof.
  intros d. unfold on_console, zoom, Console.sendline.
  by destruct (Console.replies (console d)) as [|[b| |e|e] r].
Qed.

Lemma keeps_expect (p : str) : keeps (on_console (Console.expect p)).
Proof.
  intros d. unfold on_console, zoom, Console.expect.
  by destruct (Console.replies (console d)) as [|[b| |e|e] r].
Qed.

Create HintDb keeps.
Hint Resolve keeps_ret keeps_raise keeps_of_option keeps_sendline
  keeps_expect : keeps.

Ltac keeps_step :=
  cbv beta zeta;
  lazymatch goal with
  | |- keeps (bind get _) => simple apply keeps_get; intros ?
  | |- keeps (bind _ _) => simple apply keeps_bind; [|intros ?]
  | |- keeps (try_except _ _ _) => simple apply keeps_try_except
  | |- keeps (if ?b then _ else _) => destruct b
  | |- keeps (match ?x with _ => _ end) => destruct x
  | |- _ => solve [auto with keeps]
  end.
Ltac keeps_steps := repeat keeps_step.

Lemma keeps_run (cmd : str) : keeps (run cmd).
Proof. unfold run. keeps_steps. Qed.

Lemma keeps_run_check (cmd : str) : keeps (run_check cmd).
Proof. unfold run_check. pose proof keeps_run. keeps_steps. Qed.

Lemma keeps_get_ip (interface : str) : keeps (get_ip interface).
Proof. unfold get_ip. pose proof keeps_run_check. keeps_steps. Qed.

Lemma keeps_get_hostname : keeps get_hostname.
Proof. unfold get_hostname. pose proof keeps_run_check. keeps_steps. Qed.

Lemma keeps_put_ssh_key (key : str) : keeps (put_ssh_key host_files key).
Proof.
  unfold put_ssh_key. pose proof keeps_run. pose proof keeps_run_check.
  keeps_steps.
Qed.

(** X4: no command method touches the status flag or the
    configuration, whether it returns or raises: after a Timeout or a
    broken frame in [run], [run_check], [get_ip], [get_hostname] or
    [put_ssh_key] the session reports the status it had before. *)
Theorem commands_keep_status (d : t) (cmd interface key : str) :
  let same (d' : t) := _status d' = _status d /\ settings d' = settings d in
  same (snd (run cmd d))
  /\ same (snd (run_check cmd d))
  /\ same (snd (get_ip interface d))
  /\ same (snd (get_hostname d))
  /\ same (snd (put_ssh_key host_files key d)).
Proof.
  intros same. subst same. cbv beta.
  split; [apply keeps_run|].
  split; [apply keeps_run_check|].
  split; [apply keeps_get_ip|].
  split; [apply keeps_get_hostname|].
  apply keeps_put_ssh_key.
Qed.

(** X5: on a session whose status flag is not 1, [get_ip] and
    [get_hostname] return [None] and [put_ssh_key] returns, with
    nothing sent and the session unchanged; [put_ssh_key] does not
    even open the key file, so a missing file goes unnoticed. *)
Theorem derived_not_ready (d : t) (interface key : str) :
  _status d <> 1%Z ->
  get_ip interface d = (inr None, d)
  /\ get_hostname d = (inr None, d)
  /\ put_ssh_key host_files key d = (inr tt, d).
Proof.
  intros Hst. apply Z.eqb_neq in Hst.
  unfold get_ip, get_hostname, put_ssh_key. unfold_py.
  by rewrite Hst.
Qed.

(** X6: on a session whose status flag is 1, [run] sends its one line
    before anything can fail and uses up one reply: whether it returns
    or raises, a fault of the transport included, the console has the
    command appended to the lines sent and the first reply gone. *)
Theorem run_sends_once (d : t) (cmd : str) :
  _status d = 1%Z ->
  Console.sent (console (snd (run cmd d)))
  = Console.sent (console d) ++ [ran cmd]
  /\ Console.replies (console (snd (run cmd d)))
     = tail (Console.replies (console d)).
Proof.
  intros Hst. unfold run, ran. unfold_py. rewrite Hst. cbn.
  destruct (Console.replies (console d)) as [|[b| |e|e] rest]; cbn;
    [done| |done..].
  destruct (utf8_decode b) as [text|]; cbn; [|done].
  destruct (list_index MARKER _) as [i|]; cbn; [|done].
  destruct (list_index MARKER _) as [j|]; cbn; [|done].
  destruct (last _) as [code|]; cbn; [|done].
  by destruct (py_int code).
Qed.
End SessionFrames.

Section SessionDerived.
Context `{UCD}.
Variable host_files : str -> option str.
Import ShellDriver.

Lemma run_framed (d : t) (cmd : str) (before : bytes)
    (rest : list Console.event) (text : str)
    (pre out post : list str) (code : str) (n : Z) :
  _status d = 1%Z ->
  Console.replies (console d) = Console.Before before :: rest ->
  utf8_decode before = Some text ->
  lines_of text = pre ++ MARKER :: out ++ code :: MARKER :: post ->
  MARKER ∉ pre -> MARKER ∉ out -> code <> MARKER ->
  py_int code = Some n ->
  run cmd d = (inr (Some (out, [], n)), after_run cmd rest d).
Proof.
  intros Hst Hrep Hdec Hl Hpre Hout Hcode Hint.
  unfold run. unfold_py. rewrite Hst. cbn.
  rewrite Hrep. cbn. rewrite Hdec. cbn.
  fold (lines_of text). rewrite Hl.
  rewrite list_index_first by done. cbn.
  rewrite drop_past.
  replace (out ++ code :: MARKER :: post)
    with ((out ++ [code]) ++ MARKER :: post)
    by (by rewrite <- app_assoc).
  rewrite list_index_first.
  - cbn. rewrite take_app_length, last_snoc. cbn.
    rewrite Hint. cbn. by rewrite removelast_last.
  - apply not_elem_of_app. split; [done|].
    intros Hin%list_elem_of_singleton. by apply Hcode.
Qed.

Lemma get_hostname_cases (d : t) :
  _status d = 1%Z ->
  get_hostname d
  = match run_check (lit "hostname") d with
    | (inl e, d') =>
      if is_ExecutionError e then (inr None, d') else (inl e, d')
    | (inr [], d') => (inl IndexError, d')
    | (inr (h :: _), d') => (inr (Some h), d')
    end.
Proof.
  intros Hst. unfold get_hostname. unfold_py. rewrite Hst. cbn.
  destruct (run_check _ d) as [[e|lines] d']; cbn.
  - by destruct (is_ExecutionError e).
  - by destruct lines.
Qed.

(** X7: on a session whose status flag is 1 and a well-framed reply,
    [get_hostname] returns the first output line when the exit code is
    0, [None] when it is not, and raises an IndexError when the command
    succeeded without printing a line. *)
Theorem get_hostname_framed (d : t) (before : bytes)
    (rest : list Console.event) (text : str)
    (pre out post : list str) (code : str) (n : Z) :
  _status d = 1%Z ->
  Console.replies (console d) = Console.Before before :: rest ->
  utf8_decode before = Some text ->
  lines_of text = pre ++ MARKER :: out ++ code :: MARKER :: post ->
  MARKER ∉ pre -> MARKER ∉ out -> code <> MARKER ->
  py_int code = Some n ->
  get_hostname d
  = (if (n =? 0)%Z
     then match out with
          | [] => inl IndexError
          | h :: _ => inr (Some h)
          end
     else inr None,
     after_run (lit "hostname") rest d).
Proof.
  intros Hst Hrep Hdec Hl Hpre Hout Hcode Hint.
  rewrite get_hostname_cases by done.
  unfold run_check, bind.
  rewrite (run_framed d _ before rest text pre out post code n) by done.
  destruct (n =? 0)%Z; cbn; [|done]. by destruct out.
Qed.

(** X8: [get_ip] and [get_hostname] absorb the ExecutionError of
    [run_check] and nothing else: a command that exits nonzero gives
    [None], while a Timeout, a decoding error or a broken frame raised
    underneath leaves the method as it is. *)
Theorem derived_absorb_execution_error_only (d d' : t) (interface : str)
    (e : exn) :
  _status d = 1%Z ->
  (run_check (lit "ip -o -4 addr show") d = (inl e, d') ->
   get_ip interface d
   = (if is_ExecutionError e then inr None else inl e, d'))
  /\ (run_check (lit "hostname") d = (inl e, d') ->
      get_hostname d
      = (if is_ExecutionError e then inr None else inl e, d')).
Proof.
  intros Hst. split; intros Hrun.
  - rewrite get_ip_cases by done. rewrite Hrun.
    by destruct (is_ExecutionError e).
  - rewrite get_hostname_cases by done. rewrite Hrun.
    by destruct (is_ExecutionError e).
Qed.

(** One round of the loop of [get_ip]. *)
Lemma ip_table_snoc (lines : list str) (line : str) :
  ip_table (lines ++ [line])
  = match re_match re_ip line with
    | Some m =>
      match group "if" m, group "ip" m with
      | Some i, Some ip => <[i := ip]> (ip_table lines)
      | _, _ => ip_table lines
      end
    | None => ip_table lines
    end.
Proof. unfold ip_table. by rewrite foldl_app. Qed.

Lemma ip_table_none (lines : list str) :
  Forall (fun line => re_match re_ip line = None) lines ->
  ip_table lines = ∅.
Proof.
  induction lines as [|line lines IH] using rev_ind; intros Hall; [done|].
  apply Forall_app in Hall as [Hall Hline].
  apply List.Forall_inv in Hline.
  rewrite ip_table_snoc, Hline. by apply IH.
Qed.

(** X9: when the address listing succeeded and none of its lines
    matches the pattern (no output, host-scope entries only, other
    text), [get_ip] returns [None] for every interface. *)
Theorem get_ip_nothing_listed (d d' : t) (interface : str)
    (lines : list str) :
  _status d = 1%Z ->
  run_check (lit "ip -o -4 addr show") d = (inr lines, d') ->
  Forall (fun line => re_match re_ip line = None) lines ->
  get_ip interface d = (inr None, d').
Proof.
  intros Hst Hrun Hall. rewrite get_ip_cases by done. rewrite Hrun.
  rewrite (ip_table_none lines Hall). by rewrite bool_decide_eq_true_2.
Qed.

Lemma ip_table_later (lines : list str) (interface ip : str) :
  forall earlier : list str,
    ip_table earlier !! interface = Some ip ->
    Forall (fun line =>
              forall m, re_match re_ip line = Some m ->
                        group "if" m <> Some interface) lines ->
    ip_table (earlier ++ lines) !! interface = Some ip.
Proof.
  induction lines as [|line lines IH] using rev_ind;
    intros earlier Hip Hall.
  - by rewrite app_nil_r.
  - apply Forall_app in Hall as [Hall Hline].
    apply List.Forall_inv in Hline.
    rewrite app_assoc, ip_table_snoc.
    specialize (IH earlier Hip Hall).
    destruct (re_match re_ip line) as [m|]; [|done].
    specialize (Hline m eq_refl).
    destruct (group "if" m) as [i|]; [|done].
    destruct (group "ip" m) as [a|]; [|done].
    rewrite lookup_insert_ne; [done|]. congruence.
Qed.

(** X10: when several listed lines name the requested interface,
    [get_ip] returns the address of the last of them: each matching
    line overwrites the entry of its interface. *)
Theorem get_ip_last_line_wins (d d' : t) (interface ip : str)
    (earlier later : list str) (line : str) (m : groups) :
  _status d = 1%Z ->
  run_check (lit "ip -o -4 addr show") d
  = (inr (earlier ++ line :: later), d') ->
  re_match re_ip line = Some m ->
  group "if" m = Some interface ->
  group "ip" m = Some ip ->
  Forall (fun l => forall m', re_match re_ip l = Some m' ->
                              group "if" m' <> Some interface) later ->
  get_ip interface d = (inr (Some ip), d').
Proof.
  intros Hst Hrun Hm Hif Hip Hlater.
  assert (Hlook : ip_table (earlier ++ line :: later) !! interface = Some ip).
  { replace (earlier ++ line :: later) with ((earlier ++ [line]) ++ later)
      by (by rewrite <- app_assoc).
    apply ip_table_later; [|done].
    rewrite ip_table_snoc, Hm, Hif, Hip. apply lookup_insert_eq. }
  rewrite get_ip_cases by done. rewrite Hrun, Hlook.
  rewrite bool_decide_eq_false_2; [done|].
  intros Hempty. by rewrite Hempty, lookup_empty in Hlook.
Qed.

(** A literal at the head of a pattern is a prefix of what matches. *)
Lemma bt_Lit {A} (p : str) :
  forall (s : str) (g : groups) (k : str -> groups -> option A) (x : A),
    bt (Lit p) s g k = Some x ->
    exists s1, s = p ++ s1 /\ k s1 g = Some x.
Proof.
  induction p as [|c p IH]; intros s g k x Hbt.
  - exists s. by split.
  - change (Lit (c :: p)) with (Cat (Chr (N.eqb c)) (Lit p)) in Hbt.
    cbn [bt] in Hbt. destruct s as [|c' s]; [done|].
    destruct (N.eqb_spec c c') as [<-|Hne]; [|done].
    destruct (IH s g k x Hbt) as (s1 & -> & Hk).
    exists s1. by split.
Qed.

Lemma re_key_prefix (line : str) (g : groups) :
  re_match re_key line = Some g -> lit "ssh-rsa" `prefix_of` line.
Proof.
  unfold re_match, re_key. cbn [Seq foldr bt]. intros Hbt.
  apply bt_Lit in Hbt as (s1 & -> & _). by exists s1.
Qed.

(** X11: on a session whose status flag is 1, [put_ssh_key] looks at
    the key file before it sends anything: a file that cannot be
    opened raises, and a file whose first line does not begin with
    [ssh-rsa] (an empty file, a key of another type) raises the parse
    error; in both cases the console is untouched. *)
Theorem put_ssh_key_refuses (d : t) (key : str) :
  _status d = 1%Z ->
  (host_files key = None ->
   put_ssh_key host_files key d = (inl (FileNotFoundError key), d))
  /\ (forall content,
        host_files key = Some content ->
        ~ lit "ssh-rsa" `prefix_of` readline content ->
        put_ssh_key host_files key d = (inl (IOError key), d)).
Proof.
  intros Hst. split.
  - intros Hfile. unfold put_ssh_key. unfold_py. by rewrite Hst, Hfile.
  - intros content Hfile Hnot. unfold put_ssh_key. unfold_py.
    rewrite Hst, Hfile. cbv beta iota.
    change (1 =? 1)%Z with true. cbv iota.
    destruct (re_match re_key (readline content)) as [g|] eqn:Eg; [|done].
    by apply re_key_prefix in Eg.
Qed.

(** X20: a key that the target already lists is not installed again:
    when the [cat] of the authorized keys succeeded with an exit code
    other than 1 and one of its lines parses to the key material of
    the key file, [put_ssh_key] returns with only the [cat] sent. *)
Theorem put_ssh_key_skips_listed_key (d d' : t) (key content line : str)
    (new_key entry : groups) (auth_keys diag : list str) (exitcode : Z) :
  _status d = 1%Z ->
  host_files key = Some content ->
  re_match re_key (readline content) = Some new_key ->
  run (lit "cat ~/.ssh/authorized_keys") d
  = (inr (Some (auth_keys, diag, exitcode)), d') ->
  exitcode <> 1%Z ->
  line ∈ auth_keys ->
  re_match re_key line = Some entry ->
  group "key" entry = group "key" new_key ->
  put_ssh_key host_files key d = (inr tt, d').
Proof.
  intros Hst Hfile Hnew Hcat Hcode Hin Hentry Hsame.
  unfold put_ssh_key. unfold_py. rewrite Hst, Hfile. cbv beta iota.
  change (1 =? 1)%Z with true. cbv iota. rewrite Hnew. cbv beta iota.
  rewrite Hcat. cbv beta iota.
  apply Z.eqb_neq in Hcode as ->. cbv beta iota.
  replace (existsb _ (key_entries auth_keys)) with true; [done|].
  symmetry. apply existsb_exists. exists entry. split.
  - apply list_elem_of_In. unfold key_entries.
    apply list_elem_of_omap. by exists line.
  - by apply bool_decide_eq_true.
Qed.

(** X21: the count of one million that [run] gives to the deletion of
    escape sequences takes nothing away for a before-text of up to a
    million characters: the lines are those of a deletion without a
    count. *)
Theorem strip_count_is_ample (text : str) :
  N.of_nat (length text) <= 1000000 ->
  lines_of text = str_split CRLF (re_sub_del re_vt100 text 0).
Proof.
  intros Hlen. unfold lines_of.
  unfold re_sub_del. change (1000000 =? 0) with false.
  change (0 =? 0) with true. cbv iota.
  by rewrite sub_go_budget by lia.
Qed.
End SessionDerived.

(** ** More on the byte transport *)

Section TransportStates.
Context {float : Type}.
Variable fmt_2f : float -> str.
Variable get_host_and_port : Resource.t -> exn + (str * Z).
Import SerialDriver.

Lemma construction_outcome_aux (res : Resource.t) (delay : float)
    (dv : PySerial.Device) :
  match __attrs_post_init__ res delay dv with
  | inr d =>
    known res /\ port d = res /\ status d = 0%Z
    /\ PySerial.is_open (serial d) = false
    /\ PySerial.dev (serial d) = dv
  | inl e => e = unknown_protocol /\ ~ known res
  end.
Proof.
  destruct res as [p speed|host hport speed protocol]; cbn; [done|].
  destruct (str_eqb protocol (lit "rfc2217")) eqn:Er.
  - apply str_eqb_true in Er. cbn. auto.
  - destruct (str_eqb protocol (lit "raw")) eqn:Es.
    + apply str_eqb_true in Es. cbn. auto.
    + apply str_eqb_false in Er, Es. split; [done|]. by intros [?|?].
Qed.

(** X12: the constructor refuses a proxied descriptor whose
    sub-protocol is neither rfc2217 nor raw with the unknown-protocol
    error, and nothing else; the driver it builds otherwise is bound to
    the descriptor, closed, with the status flag at 0, and no attempt
    to open was made on the device. *)
Theorem construction_outcome (res : Resource.t) (delay : float)
    (dv : PySerial.Device) :
  match __attrs_post_init__ res delay dv with
  | inr d =>
    known res /\ port d = res /\ status d = 0%Z
    /\ PySerial.is_open (serial d) = false
    /\ PySerial.dev (serial d) = dv
  | inl e => e = unknown_protocol /\ ~ known res
  end.
Proof. apply construction_outcome_aux. Qed.

(** X13: on a driver as the constructor built it, the only errors of
    activation are the error of the proxy lookup, which leaves the
    driver as it was; the could-not-open error of [open], for a speed
    that is not negative, which leaves the status flag at 0; and the
    ValueError of the serial object for a negative speed, raised before
    any attempt on the device, with the status flag at 0 and the speed
    of the serial object still the 9600 it was made with.  The
    unknown-protocol branch of [on_activate] is never taken. *)
Theorem activation_errors (res : Resource.t) (delay : float)
    (dv : PySerial.Device) (d d' : t float) (e : exn) :
  __attrs_post_init__ res delay dv = inr d ->
  on_activate get_host_and_port d = (inl e, d') ->
  (get_host_and_port res = inl e /\ d' = d)
  \/ (e = could_not_open (PySerial.port (serial d')) /\ status d' = 0%Z
      /\ (0 <= Resource.speed res)%Z)
  \/ (e = ValueError /\ (Resource.speed res < 0)%Z /\ status d' = 0%Z
      /\ PySerial.dev (serial d') = dv
      /\ PySerial.baudrate (serial d') = 9600%Z).
Proof.
  intros Hnew Hact.
  pose proof (construction_outcome_aux res delay dv) as Hc.
  rewrite Hnew in Hc. destruct Hc as (Hk & Hp & Hst & Hcl & Hdv).
  assert (Hbaud : PySerial.baudrate (serial d) = 9600%Z).
  { destruct res as [p speed|host hport speed protocol]; cbn in Hnew.
    - by injection Hnew as <-.
    - destruct (str_eqb protocol (lit "rfc2217"));
        [by injection Hnew as <-|].
      destruct (str_eqb protocol (lit "raw")); [by injection Hnew as <-|done]. }
  rewrite on_activate_closed_eq in Hact by done. rewrite Hp in Hact.
  assert (Hopen : forall target speed,
             activated target speed d = (inl e, d') ->
             (e = could_not_open (PySerial.port (serial d'))
              /\ status d' = 0%Z /\ (0 <= speed)%Z)
             \/ (e = ValueError /\ (speed < 0)%Z /\ status d' = 0%Z
                 /\ PySerial.dev (serial d') = dv
                 /\ PySerial.baudrate (serial d') = 9600%Z)).
  { intros target speed Ho. unfold activated in Ho.
    destruct (Z.ltb_spec speed 0) as [Hneg|Hpos].
    - right. injection Ho as <- <-. by cbn.
    - left. rewrite open_closed_eq in Ho by done. cbn in Ho.
      destruct target as [p|].
      + destruct (PySerial.link _ _); [done|].
        injection Ho as <- <-. by cbn.
      + injection Ho as <- <-. by cbn. }
  destruct res as [p speed|host hport speed protocol].
  - right. by eapply Hopen.
  - destruct (get_host_and_port _) as [e0|[h p]].
    + left. injection Hact as -> ->. done.
    + destruct Hk as [->| ->].
      * rewrite (proj2 (str_eqb_true _ _) eq_refl) in Hact.
        right. by eapply Hopen.
      * replace (str_eqb (lit "raw") (lit "rfc2217")) with false in Hact
          by (by vm_compute).
        rewrite (proj2 (str_eqb_true _ _) eq_refl) in Hact.
        right. by eapply Hopen.
Qed.

Lemma coherent_pointed (p : option str) (speed : Z) (d : t float) :
  coherent d -> coherent (pointed p speed d).
Proof. by destruct d. Qed.

Lemma coherent_open (d : t float) : coherent d -> coherent (snd (open d)).
Proof.
  intros Hco. destruct (decide (status d = 0%Z)) as [Hst|Hst].
  - assert (Hcl : PySerial.is_open (serial d) = false).
    { destruct (PySerial.is_open (serial d)) eqn:E; [|done].
      by apply Hco in E. }
    rewrite open_closed_eq by done.
    destruct d as [res delay [p b tm o dv] st]. cbn in *. subst st o.
    destruct p as [p|]; [|done].
    destruct (PySerial.link dv _); unfold coherent; cbn; [|done].
    split; [done|]. intros _. lia.
  - by rewrite open_when_open.
Qed.

Lemma coherent_close (d : t float) : coherent d -> coherent (snd (close d)).
Proof.
  intros Hco. destruct (decide (status d = 0%Z)) as [Hst|Hst].
  - by rewrite close_when_closed.
  - pose proof (proj1 Hco Hst) as Hopen.
    destruct d as [res delay [p b tm o dv] st]. cbn in *. subst o.
    unfold close, PySerial.close. unfold_py.
    apply Z.eqb_neq in Hst as ->. by cbn.
Qed.

Lemma coherent_activated (p : option str) (speed : Z) (d : t float) :
  coherent d -> coherent (snd (activated p speed d)).
Proof.
  intros Hco. unfold activated. destruct (speed <? 0)%Z.
  - by destruct d.
  - by apply coherent_open, coherent_pointed.
Qed.

(** X14: the status flag and the serial object stay in step.  If the
    status flag is nonzero exactly when the serial object is open, the
    same holds after [open], [close], [_read], [_write] and
    [on_deactivate], however they end, and after [on_activate] on a
    driver whose status flag is 0. *)
Theorem status_tracks_port (d : t float) :
  coherent d ->
  coherent (snd (open d))
  /\ coherent (snd (close d))
  /\ (forall size timeout, coherent (snd (_read fmt_2f size timeout d)))
  /\ (forall data, coherent (snd (_write data d)))
  /\ (status d = 0%Z -> coherent (snd (on_activate get_host_and_port d)))
  /\ coherent (snd (on_deactivate d)).
Proof.
  intros Hco.
  split; [by apply coherent_open|].
  split; [by apply coherent_close|].
  split; [|split; [|split; [|by apply coherent_close]]].
  - intros size timeout.
    destruct d as [res delay [p b tm o dv] st].
    unfold _read, PySerial.in_waiting, PySerial.set_timeout, PySerial.read.
    unfold_py. cbn.
    destruct o; cbn; [|done]. by destruct (take _ _).
  - intros data.
    destruct d as [res delay [p b tm o dv] st].
    unfold _write, PySerial.write. unfold_py. cbn.
    by destruct o.
  - intros Hst.
    assert (Hcl : PySerial.is_open (serial d) = false).
    { destruct (PySerial.is_open (serial d)) eqn:E; [|done].
      by apply Hco in E. }
    rewrite on_activate_closed_eq by done.
    destruct (port d) as [p speed|host hport speed protocol].
    + by apply coherent_activated.
    + destruct (get_host_and_port _) as [e|[h p]]; [done|].
      destruct (str_eqb protocol (lit "rfc2217"));
        [by apply coherent_activated|].
      destruct (str_eqb protocol (lit "raw"));
        [by apply coherent_activated|done].
Qed.

(** X15: for a local descriptor and a closed serial object.  With a
    speed that is not negative, activation gives the serial object the
    device path and the speed of the descriptor and then runs [open];
    with no path configured it raises the could-not-open error naming
    [None], without an attempt on the device.  A negative speed is
    refused with a ValueError once the path is set: the speed of the
    serial object stays as it was and [open] is not reached. *)
Theorem on_activate_local (d : t float) (p : option str) (speed : Z) :
  port d = Resource.SerialPort p speed ->
  PySerial.is_open (serial d) = false ->
  ((0 <= speed)%Z ->
   on_activate get_host_and_port d = open (pointed p speed d)
   /\ (p = None -> status d = 0%Z ->
       on_activate get_host_and_port d
       = (inl (SerialException (lit "Could not open serial port None")),
          pointed None speed d)))
  /\ ((speed < 0)%Z ->
      on_activate get_host_and_port d = (inl ValueError, repointed p d)).
Proof.
  intros Hport Hclosed.
  rewrite on_activate_closed_eq by done. rewrite Hport. unfold activated.
  split.
  - intros Hspeed. apply Z.ltb_ge in Hspeed as ->.
    split; [done|]. intros -> Hst. by rewrite open_closed_eq.
  - intros Hspeed. by apply Z.ltb_lt in Hspeed as ->.
Qed.

(** X16: [open] on a closed driver with a path configured makes one
    attempt on the device.  When the attempt succeeds the port is open
    and the status flag 1; when it fails, [open] raises the
    could-not-open error naming the path and the status flag stays 0,
    so that a later [open] tries again. *)
Theorem open_outcome (d : t float) (p : str) :
  status d = 0%Z ->
  PySerial.port (serial d) = Some p ->
  PySerial.is_open (serial d) = false ->
  open d
  = (if PySerial.link (PySerial.dev (serial d))
          (PySerial.opens (PySerial.dev (serial d)))
     then (inr tt, opened (attempted d))
     else (inl (SerialException (lit "Could not open serial port " ++ p)),
           attempted d))
  /\ status (attempted d) = 0%Z
  /\ PySerial.is_open (serial (attempted d)) = false
  /\ PySerial.opens (PySerial.dev (serial (attempted d)))
     = S (PySerial.opens (PySerial.dev (serial d))).
Proof.
  intros Hst Hp Hclosed. rewrite open_closed_eq by done. rewrite Hp.
  destruct d as [res delay [p0 b tm o dv] st]. cbn in *. by subst.
Qed.

Lemma open_returned (d d1 : t float) :
  status d = 0%Z ->
  PySerial.is_open (serial d) = false ->
  open d = (inr tt, d1) ->
  d1 = opened (attempted d).
Proof.
  intros Hst Hclosed Ho. rewrite open_closed_eq in Ho by done.
  destruct (PySerial.port (serial d)); [|done].
  destruct (PySerial.link _ _); [|done]. by injection Ho as <-.
Qed.

(** X17: activation followed by deactivation brings a closed driver
    back to closed: after an [on_activate] that returned,
    [on_deactivate] returns, the status flag is 0 and the serial object
    closed, the device saw one open and one close, and the serial
    object keeps the target that activation gave it. *)
Theorem activate_then_deactivate (d d1 : t float) :
  status d = 0%Z ->
  PySerial.is_open (serial d) = false ->
  on_activate get_host_and_port d = (inr tt, d1) ->
  exists d2,
    on_deactivate d1 = (inr tt, d2)
    /\ status d2 = 0%Z
    /\ PySerial.is_open (serial d2) = false
    /\ PySerial.opens (PySerial.dev (serial d2))
       = S (PySerial.opens (PySerial.dev (serial d)))
    /\ PySerial.closes (PySerial.dev (serial d2))
       = S (PySerial.closes (PySerial.dev (serial d)))
    /\ port d2 = port d
    /\ PySerial.port (serial d2) = PySerial.port (serial d1).
Proof.
  intros Hst Hclosed Hact.
  assert (Hd1 : exists target speed,
             d1 = opened (attempted (pointed target speed d))).
  { assert (Hret : forall target speed,
               activated target speed d = (inr tt, d1) ->
               d1 = opened (attempted (pointed target speed d))).
    { intros target speed Ha. unfold activated in Ha.
      destruct (speed <? 0)%Z; [done|]. by apply open_returned. }
    rewrite on_activate_closed_eq in Hact by done.
    destruct (port d) as [p speed|host hport speed protocol].
    - exists p, speed. by apply Hret.
    - destruct (get_host_and_port _) as [e|[h p]]; [done|].
      destruct (str_eqb protocol (lit "rfc2217"));
        [eexists _, _; by apply Hret|].
      destruct (str_eqb protocol (lit "raw"));
        [eexists _, _; by apply Hret|done]. }
  destruct Hd1 as (target & speed & ->).
  destruct d as [res delay [p b tm o dv] st]. cbn in *. subst st o.
  unfold on_deactivate, close, PySerial.close. unfold_py. cbn.
  by eexists.
Qed.

(** [_read] on an open port. *)
Lemma read_open_eq (d : t float) (size : Z) (timeout : float) :
  PySerial.is_open (serial d) = true ->
  fst (_read fmt_2f size timeout d)
  = match take (Z.to_nat (Z.max size
                   (Z.of_nat (length (PySerial.rx (PySerial.dev (serial d)))))))
            (PySerial.rx (PySerial.dev (serial d))
             ++ hd [] (PySerial.feed (PySerial.dev (serial d)))) with
    | [] => inl (TIMEOUT (lit "Timeout of " ++ fmt_2f timeout
                          ++ lit " seconds exceeded"))
    | b :: res => inr (b :: res)
    end
  /\ status (snd (_read fmt_2f size timeout d)) = status d.
Proof.
  intros Hopen. destruct d as [res delay [p b tm o dv] st]. cbn in *.
  subst o.
  unfold _read, PySerial.in_waiting, PySerial.set_timeout, PySerial.read.
  unfold_py. cbn. by destruct (take _ _).
Qed.

(** X18: what [_read] returns is never empty and never longer than
    the larger of [size] and the number of bytes that were pending; it
    returns only on an open port and leaves the status flag alone. *)
Theorem read_returns_data (d d' : t float) (size : Z) (timeout : float)
    (res : bytes) :
  _read fmt_2f size timeout d = (inr res, d') ->
  res <> []
  /\ (Z.of_nat (length res)
      <= Z.max size (Z.of_nat (length (PySerial.rx (PySerial.dev (serial d))))))%Z
  /\ PySerial.is_open (serial d) = true
  /\ status d' = status d.
Proof.
  intros Hread.
  destruct (PySerial.is_open (serial d)) eqn:Hopen.
  - destruct (read_open_eq d size timeout Hopen) as [Hfst Hst].
    rewrite Hread in Hfst, Hst. cbn in Hfst, Hst.
    destruct (take _ _) as [|b0 r0] eqn:Et; [done|].
    injection Hfst as ->. split_and!; [done| |done|done].
    rewrite <- Et, length_take. lia.
  - exfalso. destruct d as [r0 delay [p b tm o dv] st]. cbn in *. subst o.
    unfold _read, PySerial.in_waiting in Hread. unfold_py.
    cbn in Hread. done.
Qed.

End TransportStates.

Section SessionFraming.
Context `{UCD}.
Import ShellDriver.

Lemma utf8_decode_ascii (l : list N) :
  Forall (fun c => c < 128) l -> utf8_decode_N l = Some l.
Proof.
  induction l as [|c l IH]; intros Hall; [done|].
  apply Forall_cons in Hall as [Hc Hall].
  cbn [utf8_decode_N].
  destruct (N.ltb_spec c 128) as [_|Hge]; [|lia].
  by rewrite IH.
Qed.

Lemma re_vt100_needs_escape (c : N) (s : str) :
  c <> ESC -> c <> CSI -> re_match_len re_vt100 (c :: s) = None.
Proof.
  intros Hesc Hcsi. unfold re_match_len, re_vt100. cbn [Seq foldr bt].
  destruct (N.eqb_spec ESC c) as [Heq|_]; [congruence|].
  by destruct (N.eqb_spec CSI c) as [Heq|_]; [congruence|].
Qed.

Lemma sub_go_no_escape (budget : option N) (s : str) :
  Forall (fun c => c <> ESC /\ c <> CSI) s ->
  sub_go re_vt100 0 budget s = s.
Proof.
  induction s as [|c s IH]; intros Hall; [done|].
  apply Forall_cons in Hall as [[Hesc Hcsi] Hall].
  cbn [sub_go]. destruct (bool_decide _); [done|].
  rewrite re_vt100_needs_escape by done. by rewrite IH.
Qed.

Lemma lines_of_no_escape (text : str) :
  Forall (fun c => c <> ESC /\ c <> CSI) text ->
  lines_of text = str_split CRLF text.
Proof.
  intros Hall. unfold lines_of, re_sub_del.
  by rewrite sub_go_no_escape.
Qed.

(** X22: a before-text without the characters ESC and CSI goes
    through the deletion of escape sequences unchanged, so that [run]
    only cuts it at CR LF. *)
Theorem strip_leaves_plain_text (text : str) :
  Forall (fun c => c <> ESC /\ c <> CSI) text ->
  lines_of text = str_split CRLF text.
Proof. apply lines_of_no_escape. Qed.

Lemma split_line (l t : str) :
  forall cur : str,
    CR ∉ l ->
    split_go CRLF 0 cur (l ++ CRLF ++ t)
    = (rev cur ++ l) :: split_go CRLF 0 [] t.
Proof.
  induction l as [|c l IH]; intros cur Hcr.
  - cbn. by rewrite app_nil_r.
  - apply not_elem_of_cons in Hcr as [Hc Hcr].
    cbn [app split_go strip_prefix CRLF].
    destruct (N.eqb_spec CR c) as [Heq|_]; [congruence|].
    rewrite IH by done. cbn [rev]. by rewrite <- app_assoc.
Qed.

Lemma split_unlines (ls : list str) (t : str) :
  Forall (fun l => CR ∉ l) ls ->
  str_split CRLF (unlines ls ++ t) = ls ++ str_split CRLF t.
Proof.
  unfold str_split. induction ls as [|l ls IH]; intros Hall; [done|].
  apply Forall_cons in Hall as [Hl Hall].
  unfold unlines in *. cbn [map concat].
  rewrite <- !app_assoc. rewrite split_line by done.
  cbn [rev app]. by rewrite IH.
Qed.

Lemma exit_status_reads_back (n : Z) :
  (0 <= n <= 255)%Z ->
  py_int (str_of_Z n) = Some n
  /\ str_of_Z n <> MARKER
  /\ CR ∉ str_of_Z n.
Proof.
  intros Hn.
  assert (Hall : forallb reads_back (map Z.of_nat (seq 0 256)) = true)
    by (vm_compute; reflexivity).
  assert (Hin : In n (map Z.of_nat (seq 0 256))).
  { apply in_map_iff. exists (Z.to_nat n). split; [lia|].
    apply in_seq. lia. }
  pose proof (proj1 (forallb_forall _ _) Hall n Hin) as Hb.
  unfold reads_back in Hb.
  apply andb_true_iff in Hb as [Hb Hcr].
  apply andb_true_iff in Hb as [Hint Hmark].
  apply bool_decide_eq_true in Hint.
  apply negb_true_iff, str_eqb_false in Hmark.
  split_and!; [done..|].
  intros Hin'. apply list_elem_of_In in Hin'.
  pose proof (proj1 (forallb_forall _ _) Hcr CR Hin') as Hc.
  vm_compute in Hc. discriminate.
Qed.

Lemma MARKER_no_CR : CR ∉ MARKER.
Proof. apply (bool_decide_unpack _). vm_compute. exact I. Qed.

(** X23: a target that behaves gets its output back.  When the
    before-text is plain 7-bit text made of the echoed line, MARKER,
    the lines the command printed, its exit status between 0 and 255
    and MARKER again, each ended by CR LF, and then anything, [run]
    returns exactly the printed lines and the exit status, provided
    no printed line is MARKER or holds a CR. *)
Theorem run_returns_what_was_printed (d : t) (cmd : str) (before : bytes)
    (rest : list Console.event) (echo trailer : str) (out : list str)
    (n : Z) :
  _status d = 1%Z ->
  Console.replies (console d) = Console.Before before :: rest ->
  map Byte.to_N before
  = unlines ([echo; MARKER] ++ out ++ [str_of_Z n; MARKER]) ++ trailer ->
  plain (map Byte.to_N before) ->
  CR ∉ echo -> echo <> MARKER ->
  Forall (fun l => (CR ∉ l) /\ l <> MARKER) out ->
  (0 <= n <= 255)%Z ->
  run cmd d = (inr (Some (out, [], n)), after_run cmd rest d).
Proof.
  intros Hst Hrep Htext Hplain Hecho Hem Hout Hn.
  destruct (exit_status_reads_back n Hn) as (Hint & Hcode & Hccr).
  assert (Hdec : utf8_decode before = Some (map Byte.to_N before)).
  { unfold utf8_decode. apply utf8_decode_ascii.
    eapply Forall_impl; [exact Hplain|]. by intros c [Hc _]. }
  assert (Hlines : lines_of (map Byte.to_N before)
                   = [echo] ++ MARKER :: out ++ str_of_Z n :: MARKER
                     :: str_split CRLF trailer).
  { rewrite lines_of_no_escape.
    - rewrite Htext, split_unlines.
      + cbn [app]. by rewrite <- app_assoc.
      + apply Forall_cons. split; [done|].
        apply Forall_cons. split; [apply MARKER_no_CR|].
        apply Forall_app. split.
        * eapply Forall_impl; [exact Hout|]. by intros l [Hl _].
        * apply Forall_cons. split; [done|].
          apply Forall_cons. split; [apply MARKER_no_CR|]. constructor.
    - eapply Forall_impl; [exact Hplain|].
      intros c [Hc Hesc]. split; [done|]. unfold CSI. lia. }
  apply (run_framed d cmd before rest (map Byte.to_N before)
           [echo] out (str_split CRLF trailer) (str_of_Z n) n);
    try done.
  - intros Hin%list_elem_of_singleton. by apply Hem.
  - intros Hin. rewrite Forall_forall in Hout.
    by destruct (Hout MARKER Hin) as [_ Hne].
Qed.
End SessionFraming.

(** ** The drivers at concrete inputs *)

Section Concrete.
Import Examples.
Local Existing Instance latin1.

(** *** The run time at small inputs *)

Example shlex_quote_samples :
  shlex_quote (lit "echo hi") = lit "'echo hi'"
  /\ shlex_quote (lit "a/b-c.d") = lit "a/b-c.d"
  /\ shlex_quote [] = lit "''"
  /\ shlex_quote (lit "it's")
     = lit "'it'" ++ DQUOTE ++ lit "'" ++ DQUOTE ++ lit "'s'".
Proof. vm_compute. by repeat split. Qed.

Example py_int_samples :
  py_int (lit "0") = Some 0%Z
  /\ py_int (lit " -12_3 ") = Some (-123)%Z
  /\ py_int (lit "007") = Some 7%Z
  /\ py_int (lit "+5") = Some 5%Z
  /\ py_int [] = None
  /\ py_int (lit "1__2") = None
  /\ py_int (lit "_1") = None
  /\ py_int (lit "- 1") = None
  /\ py_int (lit "12 3") = None
  /\ py_int (lit "MARKER") = None.
Proof. vm_compute. by repeat split. Qed.

(** The digit limit of the interpreter: 4300 ones are read and one
    more is refused; with no limit they are read. *)
Example py_int_digit_limit :
  py_int (repeat 49 4300) <> None
  /\ py_int (repeat 49 4301) = None
  /\ @py_int {| hi_decimal := fun _ => None; hi_alnum := fun _ => false;
                hi_space := fun _ => false; int_max_str_digits := 0 |}
       (repeat 49 4301) <> None.
Proof. vm_compute. by repeat split. Qed.

Example str_split_samples :
  str_split CRLF (lit "ab" ++ CRLF ++ CRLF ++ lit "c" ++ [CR] ++ lit "d" ++ CRLF)
  = [lit "ab"; []; lit "c" ++ [CR] ++ lit "d"; []]
  /\ str_split CRLF [] = [[]]
  /\ str_split CRLF (lit "one line") = [lit "one line"].
Proof. vm_compute. by repeat split. Qed.

(** A colour sequence and a cursor sequence go; of a sequence that is
    cut short, the second alternative of the pattern takes the two
    characters that open it. *)
Example re_vt100_samples :
  re_sub_del ShellDriver.re_vt100
    ([ESC] ++ lit "[1;32mgreen" ++ [ESC] ++ lit "[0m plain" ++ [CSI] ++ lit "2J")
    1000000
  = lit "green plain"
  /\ re_sub_del ShellDriver.re_vt100 ([ESC] ++ lit "[12") 1000000 = lit "12"
  /\ re_sub_del ShellDriver.re_vt100
       ([ESC] ++ lit "[1mA" ++ [ESC] ++ lit "[0mB") 1
     = lit "A" ++ [ESC] ++ lit "[0mB".
Proof. vm_compute. by repeat split. Qed.

Example utf8_decode_samples :
  utf8_decode [xe2; x82; xac; x41; xc3; xa9] = Some [8364; 65; 233]
  /\ utf8_decode [xf0; x9f; x98; x80] = Some [128512]
  /\ utf8_decode [xc0; x80] = None
  /\ utf8_decode [xed; xa0; x80] = None
  /\ utf8_decode [xf4; x90; x80; x80] = None
  /\ utf8_decode [xe2; x82] = None.
Proof. vm_compute. by repeat split. Qed.

(** The scenarios of the specification for [run] and [run_check]. *)
Example run_scenarios :
  fst (ShellDriver.run (lit "echo hi") (session 1 [Console.Before echo_hi]))
  = inr (Some ([lit "hi"], [], 0%Z))
  /\ fst (ShellDriver.run (lit "false") (session 1 [Console.Before false_reply]))
     = inr (Some ([], [], 1%Z))
  /\ fst (ShellDriver.run_check (lit "false") (session 1 [Console.Before false_reply]))
     = inl (ExecutionError (lit "false")).
Proof. vm_compute. by repeat split. Qed.

(** A read on a driver that was never opened raises what the serial
    object raises for the count of pending bytes, and nothing is read;
    a transport that is down makes [run] raise with the command handed
    over and nothing awaited. *)
Example faults_pass_through :
  SerialDriver._read fmt_hundredths 1 50 (transport tty None 0 false unplugged)
  = (inl TypeError, transport tty None 0 false unplugged)
  /\ ShellDriver.run (lit "ls") (session 1 [Console.Down write_failed])
     = (inl write_failed,
        refused (lit "run ls") [] (session 1 [Console.Down write_failed])).
Proof. vm_compute. by split. Qed.

(** *** The drivers where the claims fail *)

(** C4 at a console on which neither prompt shows up in time: the
    prompt check times out and leaves the status flag at 0, the wrapper
    not sent yet; the initialisation sends the wrapper definition all
    the same, waits for the prompt and returns with the flag still 0,
    where the claim has the wrapper never sent. *)
Theorem wrapper_sent_after_timeout :
  let checked := login_and_check late_prompt in
  let init := ShellDriver.__attrs_post_init__ key_files late_prompt in
  fst checked = inr tt
  /\ ShellDriver._status (snd checked) = 0%Z
  /\ Console.sent (ShellDriver.console (snd checked)) = [[]; lit "root"; []]
  /\ fst init = inr tt
  /\ ShellDriver._status (snd init) = 0%Z
  /\ Console.sent (ShellDriver.console (snd init))
     = [[]; lit "root"; []; ShellDriver.wrapper]
  /\ Console.awaited (ShellDriver.console (snd init))
     = [lit "login: "; lit "# "; lit "# "].
Proof. vm_compute. by repeat split. Qed.

(** C5 at a listing that names [eth1] only: the command succeeded, no
    line is about [eth0], and [get_ip] raises a KeyError where the claim
    has an absent result. *)
Theorem get_ip_raises_for_unlisted :
  let r := ShellDriver.get_ip (lit "eth0") eth1_only in
  fst r = inl (KeyError (lit "eth0"))
  /\ Console.sent (ShellDriver.console (snd r))
     = [ran (lit "ip -o -4 addr show")].
Proof. vm_compute. by split. Qed.

(** The scenario of the specification: the address of a listed
    interface, and an absent result when no line matches at all. *)
Lemma get_ip_scenario :
  fst (ShellDriver.get_ip (lit "eth0") eth0_listed)
  = inr (Some (lit "192.168.1.5"))
  /\ fst (ShellDriver.get_ip (lit "eth0")
            (session 1 [Console.Before done_reply]))
     = inr None.
Proof. vm_compute. by split. Qed.

(** C9 at a key without a comment: the key line parses, the first
    installation stages and mounts the key, and the second one, shown
    the file the first one wrote, does not find the key there and
    stages and mounts it again. *)
Theorem put_ssh_key_twice_writes_twice :
  let key := lit "id_rsa.pub" in
  let writes :=
    [ran (lit "echo " ++ DQUOTE ++ bare_key ++ DQUOTE ++ lit " > /tmp/keys");
     ran (lit "chmod 600 /tmp/keys");
     ran (lit "mount --bind /tmp/keys ~/.ssh/authorized_keys");
     ran (lit "chmod 600 ~/.ssh/authorized_keys")] in
  let first := ShellDriver.put_ssh_key key_files key twice_bare_key in
  let second := ShellDriver.put_ssh_key key_files key (snd first) in
  group "key" <$> re_match ShellDriver.re_key bare_key
  = Some (Some (lit "AAAAB3NzaC1yc2E="))
  /\ re_match ShellDriver.re_key (lit "ssh-rsa AAAAB3NzaC1yc2E=") = None
  /\ fst first = inr tt
  /\ Console.sent (ShellDriver.console (snd first))
     = [ran (lit "cat ~/.ssh/authorized_keys");
        ran (lit "touch ~/.ssh/authorized_keys")] ++ writes
  /\ fst second = inr tt
  /\ Console.sent (ShellDriver.console (snd second))
     = Console.sent (ShellDriver.console (snd first))
       ++ [ran (lit "cat ~/.ssh/authorized_keys")] ++ writes.
Proof. vm_compute. by repeat split. Qed.

(** Counterexample to C7 as stated: activation of a closed driver on
    a proxied rfc2217 descriptor opens the port. *)
Lemma on_activate_opens :
  let d := transport (lab_port "rfc2217") None 0 false (line_up [] []) in
  let r := SerialDriver.on_activate no_proxy d in
  SerialDriver.status d = 0%Z
  /\ PySerial.is_open (SerialDriver.serial d) = false
  /\ fst r = inr tt
  /\ SerialDriver.status (snd r) = 1%Z
  /\ PySerial.is_open (SerialDriver.serial (snd r)) = true
  /\ PySerial.opens (PySerial.dev (SerialDriver.serial (snd r))) = 1%nat
  /\ PySerial.port (SerialDriver.serial (snd r))
     = Some (lit "rfc2217://lab1:4001/").
Proof. vm_compute. by repeat split. Qed.


(** *** The theorems applied *)

Lemma run_not_ready_witness :
  ShellDriver.run (lit "echo hi") (session 0 [Console.Before echo_hi])
  = (inr None, session 0 [Console.Before echo_hi]).
Proof.
  apply (run_not_ready (session 0 [Console.Before echo_hi]) (lit "echo hi")).
  simpl. lia.
Defined.

Lemma run_check_not_ready_witness :
  ShellDriver.run_check (lit "echo hi") (session 0 [Console.Before echo_hi])
  = (inl TypeError, session 0 [Console.Before echo_hi]).
Proof.
  apply (run_check_not_ready (session 0 [Console.Before echo_hi]) (lit "echo hi")).
  simpl. lia.
Defined.


Lemma run_check_ready_witness :
  ShellDriver.run_check (lit "echo hi") (session 1 [Console.Before echo_hi])
  = (inr [lit "hi"], after_run (lit "echo hi") [] (session 1 [Console.Before echo_hi]))
  /\ ShellDriver.run_check (lit "false") (session 1 [Console.Before false_reply])
     = (inl (ExecutionError (lit "false")),
        after_run (lit "false") [] (session 1 [Console.Before false_reply])).
Proof.
  split.
  - exact (proj1 (run_check_ready (session 1 [Console.Before echo_hi])
                    (lit "echo hi") eq_refl)
             [lit "hi"] [] 0%Z _ eq_refl).
  - exact (proj1 (run_check_ready (session 1 [Console.Before false_reply])
                    (lit "false") eq_refl)
             [] [] 1%Z _ eq_refl).
Defined.

Lemma open_close_idempotent_witness :
  let target := Some (lit "socket://lab1:4001/") in
  let opened := transport (lab_port "raw") target 1 true (line_up [] []) in
  let closed := transport (lab_port "raw") target 0 false line_down in
  SerialDriver.open opened = (inr tt, opened)
  /\ SerialDriver.close closed = (inr tt, closed)
  /\ SerialDriver.close (snd (SerialDriver.open closed))
     = (inr tt, snd (SerialDriver.open closed)).
Proof.
  intros target opened closed. split; [|split].
  - apply (proj1 (open_close_idempotent opened)). simpl. lia.
  - apply (proj1 (proj2 (open_close_idempotent closed))). reflexivity.
  - eapply (proj1 (proj2 (proj2 (open_close_idempotent closed)))).
    vm_compute. reflexivity.
Defined.

Lemma on_activate_proxied_witness :
  let raw := transport (lab_port "raw") (Some (lit "socket://")) 0 false
               (line_up [] []) in
  let odd := transport (lab_port "telnet") None 0 false (line_up [] []) in
  let backwards :=
    transport (Resource.NetworkSerialPort (lit "lab1") 4001 (-1)
                 (lit "rfc2217")) None 0 false (line_up [] []) in
  let aim := aimed (lit "socket://lab1:4001/") 115200 raw in
  (SerialDriver.on_activate no_proxy raw = SerialDriver.open aim
   /\ SerialDriver.open aim = (inr tt, opened (attempted aim))
   /\ SerialDriver.status (opened (attempted aim)) = 1%Z
   /\ PySerial.is_open (SerialDriver.serial (opened (attempted aim))) = true
   /\ PySerial.port (SerialDriver.serial (opened (attempted aim)))
      = Some (lit "socket://lab1:4001/")
   /\ PySerial.baudrate (SerialDriver.serial (opened (attempted aim)))
      = 115200%Z)
  /\ SerialDriver.__attrs_post_init__ (lab_port "telnet") 0 (line_up [] [])
     = inl SerialDriver.unknown_protocol
  /\ SerialDriver.on_activate no_proxy odd
     = (inl SerialDriver.unknown_protocol, odd)
  /\ SerialDriver.on_activate no_proxy backwards
     = (inl ValueError,
        repointed (Some (lit "rfc2217://lab1:4001/")) backwards).
Proof.
  intros raw odd backwards aim. split; [|split; [|split]].
  - apply (proj1 (proj2 (on_activate_proxied no_proxy raw
                           (lit "lab1") 4001 115200 (lit "raw") eq_refl)
                    (lit "socket://") (lit "lab1") 4001%Z
                    (or_intror (conj eq_refl eq_refl))
                    eq_refl eq_refl eq_refl)).
    lia.
  - apply (proj1 (proj1 (on_activate_proxied no_proxy odd
                           (lit "lab1") 4001 115200 (lit "telnet") eq_refl)
                    ltac:(vm_compute; discriminate)
                    ltac:(vm_compute; discriminate))).
  - apply (proj2 (proj1 (on_activate_proxied no_proxy odd
                           (lit "lab1") 4001 115200 (lit "telnet") eq_refl)
                    ltac:(vm_compute; discriminate)
                    ltac:(vm_compute; discriminate))).
  - apply (proj2 (proj2 (on_activate_proxied no_proxy backwards
                           (lit "lab1") 4001 (-1) (lit "rfc2217") eq_refl)
                    (lit "rfc2217://") (lit "lab1") 4001%Z
                    (or_introl (conj eq_refl eq_refl))
                    eq_refl eq_refl eq_refl)).
    lia.
Defined.

End Concrete.

(** ** The further theorems applied *)

Section ConcreteMore.
Import Examples.
Local Existing Instance latin1.

Lemma await_login_logs_in_witness :
  (exists d',
      ShellDriver.await_login late_prompt = (inr tt, d')
      /\ ShellDriver._status d' = 0%Z
      /\ settings d' = settings late_prompt
      /\ Console.sent (ShellDriver.console d') = [] ++ [[]; lit "root"] ++ [])
  /\ ShellDriver.await_login broken_line
     = (inl write_failed, refused [] [] broken_line).
Proof.
  split.
  - apply (proj1 (await_login_logs_in late_prompt)).
    reflexivity.
  - apply (proj2 (await_login_logs_in broken_line) write_failed []).
    reflexivity.
Defined.

Lemma init_sends_fixed_lines_witness :
  Console.sent
    (ShellDriver.console
       (snd (ShellDriver.__attrs_post_init__ key_files late_prompt)))
  = [] ++ [[]; lit "root"] ++ [] ++ [[]; ShellDriver.wrapper].
Proof.
  exact (proj1 (init_sends_fixed_lines key_files late_prompt
                  eq_refl eq_refl)).
Defined.

Lemma derived_not_ready_witness :
  ShellDriver.get_ip (lit "eth0") (session 0 [])
  = (inr None, session 0 [])
  /\ ShellDriver.get_hostname (session 0 []) = (inr None, session 0 [])
  /\ ShellDriver.put_ssh_key key_files (lit "absent.pub") (session 0 [])
     = (inr tt, session 0 []).
Proof.
  apply (derived_not_ready key_files (session 0 []) (lit "eth0")
           (lit "absent.pub")).
  simpl. lia.
Defined.

Lemma run_sends_once_witness :
  Console.sent
    (ShellDriver.console (snd (ShellDriver.run (lit "ls") (session 1 [Console.Silence]))))
  = [] ++ [ran (lit "ls")]
  /\ Console.replies
       (ShellDriver.console
          (snd (ShellDriver.run (lit "ls") (session 1 [Console.Silence]))))
     = tail [Console.Silence].
Proof.
  exact (run_sends_once (session 1 [Console.Silence]) (lit "ls") eq_refl).
Defined.

Lemma get_hostname_framed_witness :
  ShellDriver.get_hostname (session 1 [Console.Before hostname_reply])
  = (inr (Some (lit "target1")),
     after_run (lit "hostname") [] (session 1 [Console.Before hostname_reply])).
Proof.
  refine (get_hostname_framed (session 1 [Console.Before hostname_reply])
            hostname_reply []
            (lit "run hostname" ++ CRLF ++ lit "MARKER" ++ CRLF
             ++ lit "target1" ++ CRLF ++ lit "0" ++ CRLF
             ++ lit "MARKER" ++ CRLF)
            [lit "run hostname"] [lit "target1"] [[]] (lit "0") 0%Z
            eq_refl eq_refl eq_refl _ _ _ _ _).
  - vm_compute. reflexivity.
  - apply (bool_decide_unpack _). vm_compute. exact I.
  - apply (bool_decide_unpack _). vm_compute. exact I.
  - vm_compute. discriminate.
  - vm_compute. reflexivity.
Defined.

Lemma derived_absorb_execution_error_only_witness :
  ShellDriver.get_ip (lit "eth0") (session 1 [Console.Silence])
  = (inl Console.timed_out,
     after_run (lit "ip -o -4 addr show") [] (session 1 [Console.Silence]))
  /\ ShellDriver.get_hostname (session 1 [Console.Before false_reply])
     = (inr None,
        after_run (lit "hostname") [] (session 1 [Console.Before false_reply])).
Proof.
  split.
  - apply (proj1 (derived_absorb_execution_error_only
                    (session 1 [Console.Silence]) _ (lit "eth0") Console.timed_out
                    eq_refl)).
    vm_compute. reflexivity.
  - apply (proj2 (derived_absorb_execution_error_only
                    (session 1 [Console.Before false_reply]) _ (lit "eth0")
                    (ExecutionError (lit "hostname")) eq_refl)).
    vm_compute. reflexivity.
Defined.

Lemma get_ip_nothing_listed_witness :
  ShellDriver.get_ip (lit "lo") lo_only
  = (inr None, after_run (lit "ip -o -4 addr show") [] lo_only).
Proof.
  apply (get_ip_nothing_listed lo_only _ (lit "lo")
           [lit "1: lo    inet 127.0.0.1/8 scope host lo"] eq_refl).
  - vm_compute. reflexivity.
  - apply List.Forall_cons; [vm_compute; reflexivity|apply List.Forall_nil].
Defined.

Lemma get_ip_last_line_wins_witness :
  ShellDriver.get_ip (lit "eth0") two_addresses
  = (inr (Some (lit "192.168.1.9")),
     after_run (lit "ip -o -4 addr show") [] two_addresses).
Proof.
  eapply (get_ip_last_line_wins two_addresses _ (lit "eth0")
            (lit "192.168.1.9")
            [lit "2: eth0    inet 192.168.1.5/24 scope global eth0"]
            [lit "3: eth1    inet 10.0.0.7/8 scope global eth1"]
            (lit "2: eth0    inet 192.168.1.9/24 scope global secondary eth0")
            _ eq_refl).
  - vm_compute. reflexivity.
  - vm_compute. reflexivity.
  - vm_compute. reflexivity.
  - vm_compute. reflexivity.
  - apply List.Forall_cons; [|apply List.Forall_nil].
    intros m' Hm'. vm_compute in Hm'. injection Hm' as <-.
    vm_compute. discriminate.
Defined.

Lemma put_ssh_key_refuses_witness :
  ShellDriver.put_ssh_key pub_files (lit "absent.pub") (session 1 [])
  = (inl (FileNotFoundError (lit "absent.pub")), session 1 [])
  /\ ShellDriver.put_ssh_key pub_files (lit "id_ed25519.pub") (session 1 [])
     = (inl (IOError (lit "id_ed25519.pub")), session 1 [])
  /\ ShellDriver.put_ssh_key pub_files (lit "empty.pub") (session 1 [])
     = (inl (IOError (lit "empty.pub")), session 1 []).
Proof.
  split; [|split].
  - apply (proj1 (put_ssh_key_refuses pub_files (session 1 [])
                    (lit "absent.pub") eq_refl)).
    reflexivity.
  - apply (proj2 (put_ssh_key_refuses pub_files (session 1 [])
                    (lit "id_ed25519.pub") eq_refl)
             (lit "ssh-ed25519 AAAAC3NzaC1lZDI1 me@host" ++ [LF])).
    + reflexivity.
    + intros [k Hk]. vm_compute in Hk. discriminate.
  - apply (proj2 (put_ssh_key_refuses pub_files (session 1 [])
                    (lit "empty.pub") eq_refl) []).
    + reflexivity.
    + intros [k Hk]. vm_compute in Hk. discriminate.
Defined.

Lemma put_ssh_key_skips_listed_key_witness :
  ShellDriver.put_ssh_key pub_files (lit "id_rsa.pub") key_listed
  = (inr tt, after_run (lit "cat ~/.ssh/authorized_keys") [] key_listed).
Proof.
  eapply (put_ssh_key_skips_listed_key pub_files key_listed _
            (lit "id_rsa.pub") commented_key
            (lit "ssh-rsa AAAAB3NzaC1yc2E= me@host") _ _
            [lit "ssh-rsa AAAAB3NzaC1yc2E= me@host"; []] [] 0%Z eq_refl).
  - reflexivity.
  - vm_compute. reflexivity.
  - vm_compute. reflexivity.
  - lia.
  - apply (bool_decide_unpack _). vm_compute. exact I.
  - vm_compute. reflexivity.
  - vm_compute. reflexivity.
Defined.

Lemma strip_count_is_ample_witness :
  lines_of ([ESC] ++ lit "[1mhi" ++ CRLF ++ lit "0")
  = str_split CRLF
      (re_sub_del ShellDriver.re_vt100
         ([ESC] ++ lit "[1mhi" ++ CRLF ++ lit "0") 0).
Proof.
  apply (strip_count_is_ample ([ESC] ++ lit "[1mhi" ++ CRLF ++ lit "0")).
  vm_compute. discriminate.
Defined.

Lemma activation_errors_witness :
  let d := transport (lab_port "raw") (Some (lit "socket://")) 0 false
             line_down in
  let r := SerialDriver.on_activate no_proxy d in
  let e := could_not_open (Some (lit "socket://lab1:4001/")) in
  (no_proxy (lab_port "raw") = inl e /\ snd r = d)
  \/ (e = could_not_open (PySerial.port (SerialDriver.serial (snd r)))
      /\ SerialDriver.status (snd r) = 0%Z
      /\ (0 <= Resource.speed (lab_port "raw"))%Z)
  \/ (e = ValueError /\ (Resource.speed (lab_port "raw") < 0)%Z
      /\ SerialDriver.status (snd r) = 0%Z
      /\ PySerial.dev (SerialDriver.serial (snd r)) = line_down
      /\ PySerial.baudrate (SerialDriver.serial (snd r)) = 9600%Z).
Proof.
  intros d r e.
  apply (activation_errors no_proxy (lab_port "raw") 0 line_down d (snd r) e).
  - reflexivity.
  - vm_compute. reflexivity.
Defined.

Lemma status_tracks_port_witness :
  let d := transport tty (Some (lit "/dev/ttyUSB0")) 0 false (line_up [] []) in
  coherent (snd (SerialDriver.open d))
  /\ coherent (snd (SerialDriver.close d))
  /\ (forall size timeout,
        coherent (snd (SerialDriver._read fmt_hundredths size timeout d)))
  /\ (forall data, coherent (snd (SerialDriver._write data d)))
  /\ (SerialDriver.status d = 0%Z ->
      coherent (snd (SerialDriver.on_activate no_proxy d)))
  /\ coherent (snd (SerialDriver.on_deactivate d)).
Proof.
  intros d. apply (status_tracks_port fmt_hundredths no_proxy d).
  split; [simpl; lia|discriminate].
Defined.

Lemma on_activate_local_witness :
  let d := transport (Resource.SerialPort None 115200) None 0 false
             (line_up [] []) in
  let backwards := transport (Resource.SerialPort (Some (lit "/dev/ttyUSB0"))
                                (-1)) None 0 false (line_up [] []) in
  SerialDriver.on_activate no_proxy d
  = (inl (SerialException (lit "Could not open serial port None")),
     pointed None 115200 d)
  /\ SerialDriver.on_activate no_proxy backwards
     = (inl ValueError, repointed (Some (lit "/dev/ttyUSB0")) backwards).
Proof.
  intros d backwards. split.
  - apply (proj2 (proj1 (on_activate_local no_proxy d None 115200
                           eq_refl eq_refl)
                    ltac:(lia))); reflexivity.
  - apply (proj2 (on_activate_local no_proxy backwards
                    (Some (lit "/dev/ttyUSB0")) (-1) eq_refl eq_refl)).
    lia.
Defined.

Lemma open_outcome_witness :
  let d := transport tty (Some (lit "/dev/ttyUSB0")) 0 false line_down in
  SerialDriver.open d
  = (inl (SerialException (lit "Could not open serial port /dev/ttyUSB0")),
     attempted d)
  /\ SerialDriver.open (transport tty (Some (lit "/dev/ttyUSB0")) 0 false
                          (line_up [] []))
     = (inr tt,
        opened (attempted (transport tty (Some (lit "/dev/ttyUSB0")) 0 false
                             (line_up [] [])))).
Proof.
  intros d. split.
  - exact (proj1 (open_outcome d (lit "/dev/ttyUSB0")
                    eq_refl eq_refl eq_refl)).
  - exact (proj1 (open_outcome
                    (transport tty (Some (lit "/dev/ttyUSB0")) 0 false
                       (line_up [] []))
                    (lit "/dev/ttyUSB0") eq_refl eq_refl eq_refl)).
Defined.

Lemma activate_then_deactivate_witness :
  let d := transport (lab_port "rfc2217") None 0 false (line_up [] []) in
  let d1 := snd (SerialDriver.on_activate no_proxy d) in
  exists d2,
    SerialDriver.on_deactivate d1 = (inr tt, d2)
    /\ SerialDriver.status d2 = 0%Z
    /\ PySerial.is_open (SerialDriver.serial d2) = false
    /\ PySerial.opens (PySerial.dev (SerialDriver.serial d2)) = 1%nat
    /\ PySerial.closes (PySerial.dev (SerialDriver.serial d2)) = 1%nat
    /\ SerialDriver.port d2 = SerialDriver.port d
    /\ PySerial.port (SerialDriver.serial d2)
       = PySerial.port (SerialDriver.serial d1).
Proof.
  intros d d1.
  apply (activate_then_deactivate no_proxy d d1 eq_refl eq_refl).
  vm_compute. reflexivity.
Defined.

Lemma read_returns_data_witness :
  let busy := transport tty (Some (lit "/dev/ttyUSB0")) 1 true
                (line_up [x68; x69; x0a] []) in
  [x68; x69; x0a] <> []
  /\ (Z.of_nat (length [x68; x69; x0a])
      <= Z.max 1 (Z.of_nat
                    (length (PySerial.rx
                               (PySerial.dev (SerialDriver.serial busy))))))%Z
  /\ PySerial.is_open (SerialDriver.serial busy) = true
  /\ SerialDriver.status
       (snd (SerialDriver._read fmt_hundredths 1 50 busy))
     = SerialDriver.status busy.
Proof.
  intros busy.
  apply (read_returns_data fmt_hundredths busy _ 1 50 [x68; x69; x0a]).
  vm_compute. reflexivity.
Defined.


Lemma strip_leaves_plain_text_witness :
  lines_of (lit "hi" ++ CRLF ++ lit "0") = [lit "hi"; lit "0"].
Proof.
  rewrite (strip_leaves_plain_text (lit "hi" ++ CRLF ++ lit "0")).
  - vm_compute. reflexivity.
  - apply (bool_decide_unpack _). vm_compute. exact I.
Defined.

Lemma run_returns_what_was_printed_witness :
  ShellDriver.run (lit "echo hi") (session 1 [Console.Before echo_hi])
  = (inr (Some ([lit "hi"], [], 0%Z)),
     after_run (lit "echo hi") [] (session 1 [Console.Before echo_hi])).
Proof.
  apply (run_returns_what_was_printed (session 1 [Console.Before echo_hi])
           (lit "echo hi") echo_hi [] (lit "run 'echo hi'") []
           [lit "hi"] 0%Z eq_refl eq_refl).
  - vm_compute. reflexivity.
  - apply (bool_decide_unpack _). vm_compute. exact I.
  - apply (bool_decide_unpack _). vm_compute. exact I.
  - vm_compute. discriminate.
  - apply List.Forall_cons; [|apply List.Forall_nil]. split.
    + apply (bool_decide_unpack _). vm_compute. exact I.
    + vm_compute. discriminate.
  - lia.
Defined.
End ConcreteMore.
